(** * GASMS: a terminal dashboard over on-chain application records

    Shallow embedding of [pocket.py] (configuration loader and query
    client) and of the controller logic of [app.py] (class [GASMSApp]),
    followed by the properties of the dashboard's refresh, boot and
    command handling.

    Conventions of the embedding:
    - Python values are the ones [json.loads] and [yaml.safe_load] build:
      [None], booleans, integers, floats, strings, lists and mappings with
      string keys.  A [str] is a sequence of code points below 256.
    - A binary64 float is kept as sign, integer mantissa and binary
      exponent; every operation on floats is computed exactly on integers
      and rounded to nearest, ties to even, as the interpreter does.
    - Exceptions are values: a computation returns [Ok v] or [Err e], and a
      method of the application maps a state to a result and a new state,
      so that what was mutated before a raise stays mutated.
    - The file system, the YAML and JSON parsers and the external process
      are the fields of a [world]; nothing is assumed about them.
    - [print] calls are left out: they write to the console only.
    - Message texts follow CPython 3.11. *)

From Stdlib Require Import ZArith List String Ascii Bool Lia DecimalString.
Import ListNotations.

#[local] Set Warnings "-register-all".
#[local] Open Scope string_scope.
#[local] Open Scope Z_scope.

(** ** Binary64 arithmetic, on integers *)

Module Float64.

(** [FFinite neg m e] is the number [(-1)^neg * m * 2^e]. *)
Inductive float64 : Type :=
| FZero (neg : bool)
| FFinite (neg : bool) (m : positive) (e : Z)
| FInf (neg : bool)
| FNan.

(** The integer nearest to [p / q] (for [0 < q]), ties to the even one. *)
Definition round_half_even (p q : Z) : Z :=
  let d := p / q in
  let r := p mod q in
  if 2 * r <? q then d
  else if q <? 2 * r then d + 1
  else if Z.even d then d else d + 1.

(** [2^e] is [pow2_pos e / pow2_neg e], both of them integers. *)
Definition pow2_pos (e : Z) : Z := 2 ^ Z.max 0 e.
Definition pow2_neg (e : Z) : Z := 2 ^ Z.max 0 (- e).

(** [floor (log2 (p / q))] for positive [p] and [q]. *)
Definition ilog2_ratio (p q : Z) : Z :=
  let l := Z.log2 p - Z.log2 q in
  if q * pow2_pos l <=? p * pow2_neg l then l else l - 1.

(** The binary64 number nearest to [p / q], for [0 <= p] and [0 < q], with
    the given sign; [None] when the rounded magnitude exceeds the largest
    finite number.  53 bits of mantissa, least exponent -1074. *)
Definition nearest (neg : bool) (p q : Z) : option float64 :=
  if p =? 0 then Some (FZero neg)
  else
    let e := Z.max (ilog2_ratio p q - 52) (-1074) in
    let m := round_half_even (p * pow2_neg e) (q * pow2_pos e) in
    let '(m, e) := if m =? 2 ^ 53 then (2 ^ 52, e + 1) else (m, e) in
    if m =? 0 then Some (FZero neg)
    else if 971 <? e then None
    else Some (FFinite neg (Z.to_pos m) e).

(** [m * 2^e * 100], rounded to an integer: the digits of the number to two
    decimal places, as the correctly rounded conversion to decimal gives
    them. *)
Definition hundredths (m : positive) (e : Z) : Z :=
  round_half_even (100 * Z.pos m * pow2_pos e) (pow2_neg e).

(** [m * 2^e] truncated towards zero. *)
Definition truncate (m : positive) (e : Z) : Z :=
  (Z.pos m * pow2_pos e) / pow2_neg e.

End Float64.

Export Float64.

(** ** Python values, exceptions and the built-in operations the code uses *)

Module Py.

Inductive pyval : Type :=
| VNone
| VBool (b : bool)
| VInt (z : Z)
| VFloat (f : float64)
| VStr (s : string)
| VList (l : list pyval)
| VDict (kvs : list (string * pyval)).

(** Every class below derives from [Exception]; [OtherException] stands for
    the classes the environment raises ([FileNotFoundError],
    [PermissionError], [yaml.YAMLError], [json.JSONDecodeError], ...). *)
Inductive exn_class : Type :=
| KeyError
| IndexError
| TypeError
| ValueError
| OverflowError
| ZeroDivisionError
| AttributeError
| UnboundLocalError
| OtherException (name : string).

(** An exception: its class and [str(e)]. *)
Record exn : Type := Raise { exn_type : exn_class; exn_str : string }.

Inductive result (A : Type) : Type :=
| Ok (a : A)
| Err (e : exn).
Arguments Ok {A} a.
Arguments Err {A} e.

Definition bind {A B : Type} (r : result A) (k : A -> result B) : result B :=
  match r with
  | Ok a => k a
  | Err e => Err e
  end.

Definition is_lookup_error (c : exn_class) : bool :=
  match c with
  | KeyError | IndexError => true
  | _ => false
  end.

(** *** Text *)

Definition code (c : ascii) : Z := Z.of_nat (nat_of_ascii c).

Definition quote1 : ascii := "'"%char.
Definition quote2 : ascii := ascii_of_nat 34.
Definition backslash : ascii := ascii_of_nat 92.

Definition str1 (c : ascii) : string := String c EmptyString.

Definition string_of_Z (z : Z) : string := NilZero.string_of_int (Z.to_int z).

Fixpoint string_rev_onto (s acc : string) : string :=
  match s with
  | EmptyString => acc
  | String c s' => string_rev_onto s' (String c acc)
  end.

Definition string_rev (s : string) : string := string_rev_onto s EmptyString.

Fixpoint string_existsb (f : ascii -> bool) (s : string) : bool :=
  match s with
  | EmptyString => false
  | String c s' => f c || string_existsb f s'
  end.

(** [str.isspace] on one code point below 256. *)
Definition is_space (c : ascii) : bool :=
  let n := code c in
  ((9 <=? n) && (n <=? 13)) || ((28 <=? n) && (n <=? 32))
  || (n =? 133) || (n =? 160).

Fixpoint lstrip (s : string) : string :=
  match s with
  | EmptyString => EmptyString
  | String c s' => if is_space c then lstrip s' else s
  end.

Definition rstrip (s : string) : string := string_rev (lstrip (string_rev s)).

(** [s.strip()] *)
Definition strip (s : string) : string := rstrip (lstrip s).

(** [needle in hay] for two strings. *)
Fixpoint substringb (needle hay : string) : bool :=
  prefix needle hay
  || match hay with
     | EmptyString => false
     | String _ hay' => substringb needle hay'
     end.

Definition hex_digit (n : Z) : ascii :=
  ascii_of_nat (Z.to_nat (if n <? 10 then 48 + n else 87 + n)).

(** [str.isprintable] on one code point below 256. *)
Definition is_printable (c : ascii) : bool :=
  let n := code c in
  ((32 <=? n) && (n <? 127)) || ((161 <=? n) && negb (n =? 173)).

Definition repr_char (q c : ascii) : string :=
  if Ascii.eqb c q || Ascii.eqb c backslash then String backslash (str1 c)
  else if code c =? 9 then String backslash "t"
  else if code c =? 10 then String backslash "n"
  else if code c =? 13 then String backslash "r"
  else if is_printable c then str1 c
  else String backslash
         (String "x" (String (hex_digit (code c / 16)) (str1 (hex_digit (code c mod 16))))).

Fixpoint repr_chars (q : ascii) (s : string) : string :=
  match s with
  | EmptyString => EmptyString
  | String c s' => repr_char q c ++ repr_chars q s'
  end.

(** [repr(s)] of a string: single quotes, unless the text has a single
    quote and no double quote. *)
Definition repr_str (s : string) : string :=
  let q :=
    if string_existsb (Ascii.eqb quote1) s && negb (string_existsb (Ascii.eqb quote2) s)
    then quote2 else quote1 in
  String q (repr_chars q s ++ str1 q).

(** *** Types and truth *)

Definition type_name (v : pyval) : string :=
  match v with
  | VNone => "NoneType"
  | VBool _ => "bool"
  | VInt _ => "int"
  | VFloat _ => "float"
  | VStr _ => "str"
  | VList _ => "list"
  | VDict _ => "dict"
  end.

(** [bool(v)], the test of [x if v else y]. *)
Definition truthy (v : pyval) : bool :=
  match v with
  | VNone => false
  | VBool b => b
  | VInt z => negb (z =? 0)
  | VFloat (FZero _) => false
  | VFloat _ => true
  | VStr EmptyString => false
  | VStr _ => true
  | VList [] => false
  | VList _ => true
  | VDict [] => false
  | VDict _ => true
  end.

(** *** Containers *)

Fixpoint assoc (k : string) (kvs : list (string * pyval)) : option pyval :=
  match kvs with
  | [] => None
  | (k', v) :: rest => if String.eqb k k' then Some v else assoc k rest
  end.

Definition has_key (k : string) (kvs : list (string * pyval)) : bool :=
  match assoc k kvs with
  | Some _ => true
  | None => false
  end.

(** [v[k]] for a string constant [k]. *)
Definition getitem_key (v : pyval) (k : string) : result pyval :=
  match v with
  | VDict kvs =>
      match assoc k kvs with
      | Some x => Ok x
      | None => Err (Raise KeyError (repr_str k))
      end
  | VList _ =>
      Err (Raise TypeError "list indices must be integers or slices, not str")
  | VStr _ =>
      Err (Raise TypeError "string indices must be integers, not 'str'")
  | _ =>
      Err (Raise TypeError
             (String quote1 (type_name v) ++ String quote1 " object is not subscriptable"))
  end.

Fixpoint string_nth (n : nat) (s : string) : option ascii :=
  match s, n with
  | EmptyString, _ => None
  | String c _, O => Some c
  | String _ s', S n' => string_nth n' s'
  end.

(** [v[i]] for an integer constant [i]; a negative index counts from the
    end. *)
Definition getitem_index (v : pyval) (i : Z) : result pyval :=
  match v with
  | VList l =>
      let j := if i <? 0 then i + Z.of_nat (List.length l) else i in
      if j <? 0 then Err (Raise IndexError "list index out of range")
      else match nth_error l (Z.to_nat j) with
           | Some x => Ok x
           | None => Err (Raise IndexError "list index out of range")
           end
  | VStr s =>
      let j := if i <? 0 then i + Z.of_nat (String.length s) else i in
      if j <? 0 then Err (Raise IndexError "string index out of range")
      else match string_nth (Z.to_nat j) s with
           | Some c => Ok (VStr (str1 c))
           | None => Err (Raise IndexError "string index out of range")
           end
  | VDict _ => Err (Raise KeyError (string_of_Z i))
  | _ =>
      Err (Raise TypeError
             (String quote1 (type_name v) ++ String quote1 " object is not subscriptable"))
  end.

Definition is_str (k : string) (v : pyval) : bool :=
  match v with
  | VStr s => String.eqb s k
  | _ => false
  end.

(** [k in v] for a string constant [k]. *)
Definition contains (k : string) (v : pyval) : result bool :=
  match v with
  | VDict kvs => Ok (has_key k kvs)
  | VList l => Ok (existsb (is_str k) l)
  | VStr s => Ok (substringb k s)
  | _ =>
      Err (Raise TypeError
             ("argument of type " ++ String quote1 (type_name v)
              ++ String quote1 " is not iterable"))
  end.

Fixpoint chars (s : string) : list pyval :=
  match s with
  | EmptyString => []
  | String c s' => VStr (str1 c) :: chars s'
  end.

(** The items a [for] loop over [v] visits. *)
Definition iter (v : pyval) : result (list pyval) :=
  match v with
  | VList l => Ok l
  | VDict kvs => Ok (map (fun kv => VStr (fst kv)) kvs)
  | VStr s => Ok (chars s)
  | _ =>
      Err (Raise TypeError
             (String quote1 (type_name v) ++ String quote1 " object is not iterable"))
  end.

(** [v.keys()] *)
Definition keys (v : pyval) : result (list string) :=
  match v with
  | VDict kvs => Ok (map fst kvs)
  | _ =>
      Err (Raise AttributeError
             (String quote1 (type_name v)
              ++ String quote1 " object has no attribute 'keys'"))
  end.

(** *** Numbers *)

Definition digit_value (c : ascii) : option Z :=
  let n := code c in
  if (48 <=? n) && (n <=? 57) then Some (n - 48) else None.

Definition underscore : ascii := "_"%char.

(** The run of digits and single underscores at the head of [s]: its value,
    its number of digits and what follows it; [None] when two underscores
    meet or an underscore ends the run. *)
Fixpoint scan_digits (after_underscore : bool) (acc digits : Z) (s : string)
  : option (Z * Z * string) :=
  match s with
  | EmptyString => if after_underscore then None else Some (acc, digits, s)
  | String c s' =>
      match digit_value c with
      | Some d => scan_digits false (10 * acc + d) (digits + 1) s'
      | None =>
          if Ascii.eqb c underscore
          then if after_underscore then None else scan_digits true acc digits s'
          else if after_underscore then None else Some (acc, digits, s)
      end
  end.

(** The white space [int] accepts around a literal. *)
Definition is_int_space (c : ascii) : bool :=
  let n := code c in
  ((9 <=? n) && (n <=? 13)) || (n =? 32) || (n =? 133) || (n =? 160).

Fixpoint int_lstrip (s : string) : string :=
  match s with
  | EmptyString => EmptyString
  | String c s' => if is_int_space c then int_lstrip s' else s
  end.

Definition int_strip (s : string) : string :=
  string_rev (int_lstrip (string_rev (int_lstrip s))).

Definition max_str_digits : Z := 4300.

Definition invalid_literal (s : string) : exn :=
  Raise ValueError ("invalid literal for int() with base 10: " ++ repr_str s).

Definition too_many_digits (n : Z) : exn :=
  Raise ValueError
    ("Exceeds the limit (4300 digits) for integer string conversion: value has "
     ++ string_of_Z n
     ++ " digits; use sys.set_int_max_str_digits() to increase the limit").

(** [int(s)] for a string, in base 10. *)
Definition int_of_str (s : string) : result Z :=
  let t := int_strip s in
  let '(neg, body) :=
    match t with
    | String "-" t' => (true, t')
    | String "+" t' => (false, t')
    | _ => (false, t)
    end in
  match body with
  | String "_" _ => Err (invalid_literal s)
  | _ =>
      match scan_digits false 0 0 body with
      | None => Err (invalid_literal s)
      | Some (v, digits, rest) =>
          if max_str_digits <? digits then Err (too_many_digits digits)
          else if (digits =? 0) || negb (String.eqb rest EmptyString)
               then Err (invalid_literal s)
               else Ok (if neg then - v else v)
      end
  end.

Definition signed (neg : bool) (z : Z) : Z := if neg then - z else z.

(** [int(v)] *)
Definition int (v : pyval) : result Z :=
  match v with
  | VInt z => Ok z
  | VBool b => Ok (if b then 1 else 0)
  | VStr s => int_of_str s
  | VFloat (FZero _) => Ok 0
  | VFloat (FFinite neg m e) => Ok (signed neg (truncate m e))
  | VFloat (FInf _) => Err (Raise OverflowError "cannot convert float infinity to integer")
  | VFloat FNan => Err (Raise ValueError "cannot convert float NaN to integer")
  | _ =>
      Err (Raise TypeError
             ("int() argument must be a string, a bytes-like object or a real number, not "
              ++ String quote1 (type_name v) ++ str1 quote1))
  end.

(** [a / b] for two integers: the float nearest to the quotient. *)
Definition truediv (a b : Z) : result float64 :=
  if b =? 0 then Err (Raise ZeroDivisionError "division by zero")
  else
    match nearest (xorb (a <? 0) (b <? 0)) (Z.abs a) (Z.abs b) with
    | Some f => Ok f
    | None => Err (Raise OverflowError "integer division result too large for a float")
    end.

(** [round(x, 2)] for a float: the float nearest to [x] written with two
    decimal places. *)
Definition round2 (x : float64) : result float64 :=
  match x with
  | FFinite neg m e =>
      match nearest neg (hundredths m e) 100 with
      | Some f => Ok f
      | None => Err (Raise OverflowError "rounded value too large to represent")
      end
  | _ => Ok x
  end.

Definition two_digits (n : Z) : string :=
  string_of_Z (n / 10) ++ string_of_Z (n mod 10).

(** [h] hundredths written with two decimal places, for [0 <= h]. *)
Definition decimal2 (neg : bool) (h : Z) : string :=
  (if neg then "-" else EmptyString)
  ++ string_of_Z (h / 100) ++ "." ++ two_digits (h mod 100).

(** [f"{x:.2f}"] for a float. *)
Definition format_2f (x : float64) : string :=
  match x with
  | FZero neg => decimal2 neg 0
  | FFinite neg m e => decimal2 neg (hundredths m e)
  | FInf neg => if neg then "-inf" else "inf"
  | FNan => "nan"
  end.

End Py.

Export Py.

(** ** pocket.py *)

Module Pocket.

(** What [subprocess.run(cmd, check=True, capture_output=True, text=True)]
    does: it returns a completed process with its captured output, raises
    [CalledProcessError] when the exit status is not zero ([text] is the
    [str] of that exception), or raises something else (the program cannot
    be started, an argument is not a string, the output cannot be
    decoded). *)
Inductive run_outcome : Type :=
| Completed (stdout : string)
| CalledProcessError (text : string)
| RunRaised (e : exn).

(** The environment.  The [n]-th invocation of the external program may
    answer differently from the ones before it. *)
Record world : Type := World {
  read_file : string -> result string;
  yaml_safe_load : string -> result pyval;
  json_loads : string -> result pyval;
  subprocess_run : nat -> list pyval -> run_outcome
}.

Section WithWorld.

Variable w : world.

(** [load_config(path)]: the handler prints and raises again, so every
    exception of the body leaves the function unchanged. *)
Definition load_config (path : string) : result pyval :=
  bind (read_file w path) (fun raw =>
  bind (yaml_safe_load w raw) (fun config =>
  bind (keys config) (fun _ =>
  getitem_key config "config"))).

Definition command (app_address rpc : pyval) : list pyval :=
  [VStr "pocketd"; VStr "q"; VStr "application"; VStr "show-application";
   app_address; VStr "--node"; rpc; VStr "--output"; VStr "json"].

Definition error_record (text : string) : pyval :=
  VDict [("error", VStr text)].

(** The second handler reads [result.stdout]; when [subprocess.run] itself
    raised, [result] was never bound. *)
Definition result_unbound : exn :=
  Raise UnboundLocalError
    "cannot access local variable 'result' where it is not associated with a value".

(** [query_application(app_address, rpc)], as the [n]-th invocation. *)
Definition query_application (n : nat) (app_address rpc : pyval) : result pyval :=
  match subprocess_run w n (command app_address rpc) with
  | Completed stdout =>
      match bind (json_loads w stdout) (fun v => getitem_key v "application") with
      | Ok application => Ok application
      | Err _ => Ok (error_record "Parse failure")
      end
  | CalledProcessError text => Ok (error_record ("Subprocess failed: " ++ text))
  | RunRaised _ => Err result_unbound
  end.

End WithWorld.

End Pocket.

Export Pocket.

(** ** app.py: the controller of [GASMSApp] *)

Module GASMSApp.

(** One row of the table: the four cells given to [add_row]. *)
Record Row : Type := mkRow {
  address : pyval;
  stake : pyval;
  service : pyval;
  gateway_cell : pyval
}.

(** The attributes of the application the controller reads and writes.
    [config], [rpc] and [gateway] do not exist before [on_mount] sets them;
    [runs] counts the invocations of the external program so far. *)
Record state : Type := State {
  config : option pyval;
  rpc : option pyval;
  gateway : option pyval;
  table : list Row;
  splash : bool;
  cmd_display : bool;
  cmd_focus : bool;
  repaints : nat;
  finish_boot_pending : bool;
  exited : bool;
  runs : nat
}.

Definition initial : state :=
  State None None None [] true false false 0 false false 0.

Definition set_config (v : pyval) (s : state) : state :=
  State (Some v) (rpc s) (gateway s) (table s) (splash s) (cmd_display s)
        (cmd_focus s) (repaints s) (finish_boot_pending s) (exited s) (runs s).
Definition set_rpc (v : pyval) (s : state) : state :=
  State (config s) (Some v) (gateway s) (table s) (splash s) (cmd_display s)
        (cmd_focus s) (repaints s) (finish_boot_pending s) (exited s) (runs s).
Definition set_gateway (v : pyval) (s : state) : state :=
  State (config s) (rpc s) (Some v) (table s) (splash s) (cmd_display s)
        (cmd_focus s) (repaints s) (finish_boot_pending s) (exited s) (runs s).
Definition set_table (t : list Row) (s : state) : state :=
  State (config s) (rpc s) (gateway s) t (splash s) (cmd_display s)
        (cmd_focus s) (repaints s) (finish_boot_pending s) (exited s) (runs s).
Definition set_splash (b : bool) (s : state) : state :=
  State (config s) (rpc s) (gateway s) (table s) b (cmd_display s)
        (cmd_focus s) (repaints s) (finish_boot_pending s) (exited s) (runs s).
Definition set_cmd_display (b : bool) (s : state) : state :=
  State (config s) (rpc s) (gateway s) (table s) (splash s) b
        (cmd_focus s) (repaints s) (finish_boot_pending s) (exited s) (runs s).
Definition set_cmd_focus (b : bool) (s : state) : state :=
  State (config s) (rpc s) (gateway s) (table s) (splash s) (cmd_display s)
        b (repaints s) (finish_boot_pending s) (exited s) (runs s).
Definition set_repaints (n : nat) (s : state) : state :=
  State (config s) (rpc s) (gateway s) (table s) (splash s) (cmd_display s)
        (cmd_focus s) n (finish_boot_pending s) (exited s) (runs s).
Definition set_finish_boot_pending (b : bool) (s : state) : state :=
  State (config s) (rpc s) (gateway s) (table s) (splash s) (cmd_display s)
        (cmd_focus s) (repaints s) b (exited s) (runs s).
Definition set_exited (b : bool) (s : state) : state :=
  State (config s) (rpc s) (gateway s) (table s) (splash s) (cmd_display s)
        (cmd_focus s) (repaints s) (finish_boot_pending s) b (runs s).
Definition set_runs (n : nat) (s : state) : state :=
  State (config s) (rpc s) (gateway s) (table s) (splash s) (cmd_display s)
        (cmd_focus s) (repaints s) (finish_boot_pending s) (exited s) n.

(** A method: a result and the state it leaves, also when it raises. *)
Definition M (A : Type) : Type := state -> result A * state.

Definition ret {A : Type} (a : A) : M A := fun s => (Ok a, s).

Definition bindM {A B : Type} (m : M A) (k : A -> M B) : M B :=
  fun s =>
    match m s with
    | (Ok a, s') => k a s'
    | (Err e, s') => (Err e, s')
    end.

Definition lift {A : Type} (r : result A) : M A := fun s => (r, s).

Definition modify (f : state -> state) : M unit := fun s => (Ok tt, f s).

(** [self.name] for an attribute that [on_mount] creates. *)
Definition attribute (name : string) (field : state -> option pyval) : M pyval :=
  fun s =>
    match field s with
    | Some v => (Ok v, s)
    | None =>
        (Err (Raise AttributeError
                ("'GASMSApp' object has no attribute " ++ repr_str name)), s)
    end.

(** [try: body  except Exception as e: handler(e)] *)
Definition try_except {A : Type} (body : M A) (handler : exn -> M A) : M A :=
  fun s =>
    match body s with
    | (Ok a, s') => (Ok a, s')
    | (Err e, s') => handler e s'
    end.

Declare Scope method_scope.
Delimit Scope method_scope with method.
Notation "x <- m ;; k" := (bindM m (fun x => k))
  (at level 61, m at next level, right associativity) : method_scope.
Notation "m ;; k" := (bindM m (fun _ => k))
  (at level 61, right associativity) : method_scope.
#[local] Open Scope method_scope.

Fixpoint for_each {A : Type} (body : A -> M unit) (items : list A) : M unit :=
  match items with
  | [] => ret tt
  | x :: rest => body x ;; for_each body rest
  end.

Section WithWorld.

Variable w : world.

(** [self.table.clear()] and [self.table.add_row(a, b, c, d)] *)
Definition table_clear : M unit := modify (set_table []).

Definition add_row (a b c d : pyval) : M unit :=
  modify (fun s => set_table (table s ++ [mkRow a b c d]) s).

(** [query_application(app, rpc)] run from the application: one more
    invocation of the external program. *)
Definition query (app rpc : pyval) : M pyval :=
  fun s => (query_application w (runs s) app rpc, set_runs (S (runs s)) s).

(** The service cell:
    [data["service_configs"][0]["service_id"] if data["service_configs"] else "-"] *)
Definition service_id_of (data : pyval) : result pyval :=
  bind (getitem_key data "service_configs") (fun test =>
  if truthy test
  then bind (getitem_key data "service_configs") (fun configs =>
       bind (getitem_index configs 0) (fun first =>
       getitem_key first "service_id"))
  else Ok (VStr "-")).

(** [round(int(data["stake"]["amount"]) / 1_000_000, 2)] *)
Definition stake_amt_of (data : pyval) : result float64 :=
  bind (getitem_key data "stake") (fun stake =>
  bind (getitem_key stake "amount") (fun amount =>
  bind (int amount) (fun n =>
  bind (truediv n 1000000) round2))).

(** The body of the [try] in the loop of [refresh_table]. *)
Definition add_record_row (app data : pyval) : M unit :=
  stake_amt <- lift (stake_amt_of data) ;;
  service_id <- lift (service_id_of data) ;;
  gw <- attribute "gateway" gateway ;;
  add_row app (VStr (format_2f stake_amt)) service_id gw.

(** The body of the loop of [refresh_table], for one address. *)
Definition refresh_row (app : pyval) : M unit :=
  node <- attribute "rpc" rpc ;;
  data <- query app node ;;
  has_error <- lift (contains "error" data) ;;
  if has_error : bool
  then add_row app (VStr "Error") (VStr "-") (VStr "-")
  else try_except (add_record_row app data)
         (fun e => add_row app (VStr ("ParseErr: " ++ exn_str e)) (VStr "-") (VStr "-")).

Definition refresh_table : M unit :=
  table_clear ;;
  cfg <- attribute "config" config ;;
  applications <- lift (getitem_key cfg "applications") ;;
  apps <- lift (iter applications) ;;
  for_each refresh_row apps.

Definition action_refresh : M unit := refresh_table.

(** [on_mount]: [call_later] leaves [finish_boot] to the next turn of the
    event loop. *)
Definition on_mount : M unit :=
  cfg <- lift (load_config w "config.yaml") ;;
  modify (set_config cfg) ;;
  cfg1 <- attribute "config" config ;;
  node <- lift (getitem_key cfg1 "rpc_endpoint") ;;
  modify (set_rpc node) ;;
  cfg2 <- attribute "config" config ;;
  gateways <- lift (getitem_key cfg2 "gateways") ;;
  first <- lift (getitem_index gateways 0) ;;
  modify (set_gateway first) ;;
  modify (set_finish_boot_pending true).

Definition finish_boot : M unit :=
  modify (set_splash false) ;;
  refresh_table.

(** The event loop after a successful [on_mount]: the deferred call runs. *)
Definition run_pending : M unit :=
  fun s =>
    if finish_boot_pending s
    then finish_boot (set_finish_boot_pending false s)
    else (Ok tt, s).

(** Start-up: [on_mount], then what it deferred.  An exception of
    [on_mount] ends the application before anything deferred runs. *)
Definition boot : M unit := on_mount ;; run_pending.

(** [self.refresh()]: asks the framework to paint the widget again. *)
Definition widget_refresh : M unit :=
  modify (fun s => set_repaints (S (repaints s)) s).

Definition action_enter_command_mode : M unit :=
  modify (set_cmd_display true) ;;
  modify (set_cmd_focus true).

(** [on_input_submitted(event)], [value] being [event.value]. *)
Definition on_input_submitted (value : string) : M unit :=
  let cmd := strip value in
  modify (set_cmd_display false) ;;
  widget_refresh ;;
  if String.eqb cmd "q"
  then modify (set_exited true)
  else ret tt.

Definition on_input_blurred : M unit :=
  modify (set_cmd_display false) ;;
  widget_refresh.

End WithWorld.

End GASMSApp.

Export GASMSApp.

(** ** Vocabulary of the statements *)

Module Spec.

#[local] Open Scope method_scope.

Definition error_row (app : pyval) : Row :=
  mkRow app (VStr "Error") (VStr "-") (VStr "-").

Definition parse_error_row (app : pyval) (e : exn) : Row :=
  mkRow app (VStr ("ParseErr: " ++ exn_str e)) (VStr "-") (VStr "-").

Definition no_gateway : exn :=
  Raise AttributeError ("'GASMSApp' object has no attribute " ++ repr_str "gateway").

(** The row the [try] body adds for a record, or what it raises. *)
Definition record_row (gw : option pyval) (app data : pyval) : result Row :=
  bind (stake_amt_of data) (fun stake_amt =>
  bind (service_id_of data) (fun service_id =>
  match gw with
  | Some g => Ok (mkRow app (VStr (format_2f stake_amt)) service_id g)
  | None => Err no_gateway
  end)).

(** The row one turn of the loop adds for the value the query returned; an
    error when the membership test raises. *)
Definition shown_row (gw : option pyval) (app data : pyval) : result Row :=
  bind (contains "error" data) (fun has_error =>
  if has_error : bool then Ok (error_row app)
  else match record_row gw app data with
       | Ok r => Ok r
       | Err e => Ok (parse_error_row app e)
       end).

(** The rows of one cycle over [apps], the first query being invocation
    [n]; an error when a query or a membership test raises. *)
Fixpoint cycle_rows (w : world) (gw : option pyval) (node : pyval) (n : nat)
  (apps : list pyval) : result (list Row) :=
  match apps with
  | [] => Ok []
  | app :: rest =>
      bind (bind (query_application w n app node) (shown_row gw app)) (fun r =>
      bind (cycle_rows w gw node (S n) rest) (fun rs => Ok (r :: rs)))
  end.

(** The state after a query that added row [r]. *)
Definition after_query (r : Row) (s : state) : state :=
  set_table (table s ++ [r]) (set_runs (S (runs s)) s).

(** [on_mount] has run: the three attributes hold what the loaded
    configuration gives. *)
Definition mounted (w : world) (s : state) : Prop :=
  exists cfg node gateways first,
    load_config w "config.yaml" = Ok cfg
    /\ config s = Some cfg
    /\ getitem_key cfg "rpc_endpoint" = Ok node /\ rpc s = Some node
    /\ getitem_key cfg "gateways" = Ok gateways
    /\ getitem_index gateways 0 = Ok first /\ gateway s = Some first.

(** The value under the wrapper key of a parsed configuration file. *)
Definition wrapper_of (doc : pyval) : option pyval :=
  match doc with
  | VDict kvs => assoc "config" kvs
  | _ => None
  end.

(** A text made of white space only. *)
Fixpoint all_space (s : string) : bool :=
  match s with
  | EmptyString => true
  | String c s' => is_space c && all_space s'
  end.




End Spec.

Export Spec.

(** ** An environment to run the definitions in *)

Module Demo.

Definition newline : string := str1 (ascii_of_nat 10).

Definition quoted (s : string) : string := String quote2 (s ++ str1 quote2).

(** A JSON text for a value (strings without escapes, no floats). *)
Fixpoint dumps (v : pyval) : string :=
  match v with
  | VNone => "null"
  | VBool b => if b then "true" else "false"
  | VInt z => string_of_Z z
  | VFloat _ => "NaN"
  | VStr s => quoted s
  | VList l =>
      "[" ++ (fix items (l : list pyval) : string :=
                match l with
                | [] => EmptyString
                | [x] => dumps x
                | x :: rest => dumps x ++ ", " ++ items rest
                end) l ++ "]"
  | VDict kvs =>
      "{" ++ (fix members (kvs : list (string * pyval)) : string :=
                match kvs with
                | [] => EmptyString
                | [(k, x)] => quoted k ++ ": " ++ dumps x
                | (k, x) :: rest => quoted k ++ ": " ++ dumps x ++ ", " ++ members rest
                end) kvs ++ "}"
  end.

Definition record (amount : pyval) (services : list string) : pyval :=
  VDict [("address", VStr "pokt1app");
         ("stake", VDict [("denom", VStr "upokt"); ("amount", amount)]);
         ("service_configs",
          VList (map (fun s => VDict [("service_id", VStr s)]) services))].

Definition reply (application : pyval) : pyval :=
  VDict [("application", application)].

Definition documents : list pyval :=
  [reply (record (VStr "2500000") ["anvil"; "eth"]);
   reply (record (VStr "15000") []);
   reply (record (VStr "12a") ["anvil"]);
   reply (VDict [("address", VStr "pokt1app")]);
   reply VNone].

Fixpoint parse_known (docs : list pyval) (text : string) : result pyval :=
  match docs with
  | [] => Err (Raise (OtherException "JSONDecodeError")
                 "Expecting value: line 1 column 1 (char 0)")
  | d :: rest => if String.eqb (dumps d) text then Ok d else parse_known rest text
  end.

Definition config_text : string :=
  "config:" ++ newline
  ++ "  rpc_endpoint: https://rpc.example:443" ++ newline
  ++ "  gateways:" ++ newline
  ++ "    - pokt1gateway" ++ newline
  ++ "    - pokt1other" ++ newline
  ++ "  applications:" ++ newline
  ++ "    - pokt1good" ++ newline
  ++ "    - pokt1exit" ++ newline
  ++ "    - pokt1text" ++ newline
  ++ "    - pokt1stake" ++ newline.

Definition applications : list pyval :=
  [VStr "pokt1good"; VStr "pokt1exit"; VStr "pokt1text"; VStr "pokt1stake"].

Definition configuration : pyval :=
  VDict [("rpc_endpoint", VStr "https://rpc.example:443");
         ("gateways", VList [VStr "pokt1gateway"; VStr "pokt1other"]);
         ("applications", VList applications)].

Definition read_known (path : string) : result string :=
  if String.eqb path "config.yaml" then Ok config_text
  else Err (Raise (OtherException "FileNotFoundError")
              ("[Errno 2] No such file or directory: " ++ repr_str path)).

Definition load_known (wrapped : pyval) (text : string) : result pyval :=
  if String.eqb text config_text then Ok wrapped
  else Err (Raise (OtherException "YAMLError") "could not parse the document").

(** The client answers by address: a record, a non-zero exit, a text that
    is not JSON, a record with a malformed stake; for one address it fails
    on the first invocation and prints a text that is not JSON afterwards. *)
Definition client (n : nat) (argv : list pyval) : run_outcome :=
  match nth 4 argv VNone with
  | VStr "pokt1good" =>
      Completed (dumps (reply (record (VStr "2500000") ["anvil"; "eth"])))
  | VStr "pokt1exit" =>
      CalledProcessError "Command 'pocketd' returned non-zero exit status 1."
  | VStr "pokt1text" => Completed "rpc error: connection refused"
  | VStr "pokt1stake" => Completed (dumps (reply (record (VStr "12a") ["anvil"])))
  | VStr "pokt1flaky" =>
      match n with
      | O => CalledProcessError "Command 'pocketd' returned non-zero exit status 1."
      | S _ => Completed "rpc error: connection refused"
      end
  | _ => Completed (dumps (reply VNone))
  end.

Definition the_world : world :=
  World read_known (load_known (VDict [("config", configuration)]))
        (parse_known documents) client.

(** The same, on a machine where the client program is not installed. *)
Definition no_client (n : nat) (argv : list pyval) : run_outcome :=
  RunRaised (Raise (OtherException "FileNotFoundError")
               "[Errno 2] No such file or directory: 'pocketd'").

Definition world_without_client : world :=
  World read_known (load_known (VDict [("config", configuration)]))
        (parse_known documents) no_client.

(** A configuration file whose top level has no [config] entry, and one
    with the wrapper but no [applications]. *)
Definition world_unwrapped : world :=
  World read_known (load_known configuration) (parse_known documents) client.

Definition world_no_applications : world :=
  World read_known
        (load_known
           (VDict [("config",
                    VDict [("rpc_endpoint", VStr "https://rpc.example:443");
                           ("gateways", VList [VStr "pokt1gateway"])])]))
        (parse_known documents) client.

Definition mounted_state (w : world) : state := snd (on_mount w initial).

End Demo.

(** ** app.py: the art files and the calls the framework makes *)

Module Art.

(** The characters [str.splitlines] ends a line at, below 256. *)
Definition is_line_boundary (c : ascii) : bool :=
  let n := code c in
  ((10 <=? n) && (n <=? 13)) || ((28 <=? n) && (n <=? 30)) || (n =? 133).

(** [s.splitlines()], [line] being the current line in reverse.  A carriage
    return followed by a line feed ends one line; no empty line is added
    after the last boundary. *)
Fixpoint splitlines_onto (line s : string) : list string :=
  match s with
  | EmptyString =>
      match line with
      | EmptyString => []
      | _ => [string_rev line]
      end
  | String c s' =>
      if is_line_boundary c
      then string_rev line
           :: match s' with
              | String c' s'' =>
                  if (code c =? 13) && (code c' =? 10)
                  then splitlines_onto EmptyString s''
                  else splitlines_onto EmptyString s'
              | EmptyString => splitlines_onto EmptyString s'
              end
      else splitlines_onto (String c line) s'
  end.

Definition splitlines (s : string) : list string := splitlines_onto EmptyString s.

(** [lines[0]] *)
Definition first_item (lines : list string) : result string :=
  match lines with
  | x :: _ => Ok x
  | [] => Err (Raise IndexError "list index out of range")
  end.

Section WithWorld.

Variable w : world.

(** [load_ascii_art(filename)] *)
Definition load_ascii_art (filename : string) : result string :=
  read_file w ("art/" ++ filename).

(** The two constants the module computes when it is imported, in the
    order of the source. *)
Definition LOGO_LINE : result string :=
  bind (load_ascii_art "logo.txt") (fun text => first_item (splitlines text)).

Definition SPLASH_ART : result string := load_ascii_art "splash.txt".

Definition module_constants : result (string * string) :=
  bind LOGO_LINE (fun logo => bind SPLASH_ART (fun splash_art => Ok (logo, splash_art))).

End WithWorld.

(** [HeaderBar.compose]: the text and the id of the two widgets. *)
Definition header_bar (logo_line : string) : list (string * string) :=
  [("r:Refresh  :Command", "commands"); (logo_line, "logo")].

End Art.

Export Art.

Module Session.

(** The methods of [GASMSApp] the framework calls after start-up: the two
    actions of [BINDINGS] (keys [r] and [:]) and the two handlers of the
    command input. *)
Inductive call : Type :=
| ActionRefresh
| ActionEnterCommandMode
| InputSubmitted (value : string)
| InputBlurred.

Definition handle (w : world) (c : call) : M unit :=
  match c with
  | ActionRefresh => action_refresh w
  | ActionEnterCommandMode => action_enter_command_mode
  | InputSubmitted value => on_input_submitted value
  | InputBlurred => on_input_blurred
  end.

(** A run of calls, one after the other; an exception that leaves a method
    ends the application, and the calls after it are not made. *)
Definition session (w : world) (calls : list call) : M unit :=
  for_each (handle w) calls.

Definition is_quit (c : call) : bool :=
  match c with
  | InputSubmitted value => String.eqb (strip value) "q"
  | _ => false
  end.

Definition is_refresh (c : call) : bool :=
  match c with
  | ActionRefresh => true
  | _ => false
  end.

End Session.

Export Session.

Module Notions.

(** A value on which [in] raises: neither text nor list nor mapping. *)
Definition is_scalar (v : pyval) : bool :=
  match v with
  | VNone | VBool _ | VInt _ | VFloat _ => true
  | _ => false
  end.

(** [s'] differs from [s] in the table and the count of invocations at
    most. *)
Definition same_outside_table (s s' : state) : Prop :=
  config s' = config s /\ rpc s' = rpc s /\ gateway s' = gateway s
  /\ splash s' = splash s /\ cmd_display s' = cmd_display s
  /\ cmd_focus s' = cmd_focus s /\ repaints s' = repaints s
  /\ finish_boot_pending s' = finish_boot_pending s /\ exited s' = exited s.

(** The client answers a command line the same way each time. *)
Definition stationary (w : world) : Prop :=
  forall (n m : nat) (argv : list pyval), subprocess_run w n argv = subprocess_run w m argv.

Fixpoint has_line_boundary (s : string) : bool :=
  match s with
  | EmptyString => false
  | String c s' => is_line_boundary c || has_line_boundary s'
  end.

(** The configuration has no entry [k] to read. *)
Definition lacks_entry (cfg : pyval) (k : string) : bool :=
  match cfg with
  | VDict kvs => negb (has_key k kvs)
  | _ => true
  end.


End Notions.

Export Notions.

Module DemoArt.

Import Demo.

Definition logo_text : string :=
  "  GASMS  " ++ newline ++ " ~~~~~~~ " ++ newline.

Definition read_art (path : string) : result string :=
  if String.eqb path "art/logo.txt" then Ok logo_text
  else if String.eqb path "art/splash.txt" then Ok ("loading..." ++ newline)
  else read_known path.

Definition world_with_art : world :=
  World read_art (load_known (VDict [("config", configuration)]))
        (parse_known documents) client.

(** The client on a node that answers every address with the same
    record. *)
Definition steady_client (n : nat) (argv : list pyval) : run_outcome :=
  Completed (dumps (reply (record (VStr "2500000") ["anvil"; "eth"]))).

Definition steady_world : world :=
  World read_known (load_known (VDict [("config", configuration)]))
        (parse_known documents) steady_client.

(** The client on a node whose every answer has [application] as its
    [application] member. *)
Definition replying (application : pyval) : world :=
  World read_known (load_known (VDict [("config", configuration)]))
        (fun _ => Ok (reply application))
        (fun _ _ => Completed (dumps (reply application))).

(** A configuration file with nothing under the wrapper key, and one whose
    [gateways] has no value and that has no [applications]: the loader
    returns [None] for the first, a mapping with [gateways: None] for the
    second. *)
Definition null_config_text : string := "config:" ++ newline.

Definition null_gateways_text : string :=
  "config:" ++ newline
  ++ "  rpc_endpoint: https://rpc.example:443" ++ newline
  ++ "  gateways:" ++ newline.

Definition load_one (known : string) (doc : pyval) (text : string) : result pyval :=
  if String.eqb text known then Ok doc
  else Err (Raise (OtherException "YAMLError") "could not parse the document").

Definition world_null_config : world :=
  World (fun _ => Ok null_config_text)
        (load_one null_config_text (VDict [("config", VNone)]))
        (parse_known documents) client.

Definition world_null_gateways : world :=
  World (fun _ => Ok null_gateways_text)
        (load_one null_gateways_text
           (VDict [("config",
                    VDict [("rpc_endpoint", VStr "https://rpc.example:443");
                           ("gateways", VNone)])]))
        (parse_known documents) client.

End DemoArt.

(** * Properties *)

(** ** Rounding *)

Section Rounding.

Lemma round_half_even_error (p q : Z) :
  0 < q -> Z.abs (q * round_half_even p q - p) * 2 <= q.
Proof.
  intros Hq. unfold round_half_even.
  pose proof (Z.div_mod p q ltac:(lia)) as Hdm.
  pose proof (Z.mod_pos_bound p q Hq) as Hr.
  destruct (2 * (p mod q) <? q) eqn:E1; [apply Z.ltb_lt in E1; lia|].
  apply Z.ltb_ge in E1.
  destruct (q <? 2 * (p mod q)) eqn:E2; [apply Z.ltb_lt in E2; lia|].
  apply Z.ltb_ge in E2.
  destruct (Z.even (p / q)); lia.
Qed.

Lemma round_half_even_scale (k p q : Z) :
  0 < k -> 0 < q -> round_half_even (k * p) (k * q) = round_half_even p q.
Proof.
  intros Hk Hq. unfold round_half_even.
  rewrite Z.div_mul_cancel_l by lia.
  rewrite Z.mul_mod_distr_l by lia.
  replace (2 * (k * (p mod q)) <? k * q) with (2 * (p mod q) <? q)
    by (apply Bool.eq_true_iff_eq; rewrite !Z.ltb_lt; nia).
  replace (k * q <? 2 * (k * (p mod q))) with (q <? 2 * (p mod q))
    by (apply Bool.eq_true_iff_eq; rewrite !Z.ltb_lt; nia).
  reflexivity.
Qed.

Lemma round_half_even_pos (p q : Z) :
  0 < q -> q < 2 * p -> 0 < round_half_even p q.
Proof.
  intros Hq Hp.
  pose proof (round_half_even_error p q Hq). nia.
Qed.

Lemma pow2_neg_of_neg (e : Z) : e <= 0 -> pow2_neg e = 2 ^ (- e) /\ pow2_pos e = 1.
Proof.
  intros He. unfold pow2_neg, pow2_pos.
  rewrite (Z.max_r 0 (- e)) by lia. rewrite (Z.max_l 0 e) by lia. auto.
Qed.

Lemma ilog2_ratio_upper (p q B : Z) :
  0 < p -> 0 < q -> 0 <= B -> p < q * 2 ^ B -> ilog2_ratio p q < B.
Proof.
  intros Hp Hq HB Hlt. unfold ilog2_ratio.
  set (l := Z.log2 p - Z.log2 q).
  destruct (Z_lt_le_dec l B) as [Hl | Hl].
  - destruct (_ <=? _); lia.
  - pose proof (Z.log2_spec p Hp) as [Hp1 _].
    pose proof (Z.log2_spec q Hq) as [_ Hq2].
    pose proof (Z.log2_nonneg q) as Hq0.
    assert (Hpow : 2 ^ Z.log2 p = 2 ^ Z.log2 q * 2 ^ l).
    { rewrite <- Z.pow_add_r by lia. f_equal. lia. }
    assert (HlB : 2 ^ B <= 2 ^ l) by (apply Z.pow_le_mono_r; lia).
    assert (0 < 2 ^ Z.log2 q) by (apply Z.pow_pos_nonneg; lia).
    assert (0 < 2 ^ B) by (apply Z.pow_pos_nonneg; lia).
    destruct (q * pow2_pos l <=? p * pow2_neg l) eqn:E.
    + apply Z.leb_le in E. unfold pow2_pos, pow2_neg in E.
      rewrite (Z.max_r 0 l) in E by lia. rewrite (Z.max_l 0 (- l)) in E by lia.
      simpl in E. nia.
    + destruct (Z.eq_dec l B) as [Heq | Hne]; [lia|].
      exfalso.
      assert (HlB' : 2 ^ (B + 1) <= 2 ^ l) by (apply Z.pow_le_mono_r; lia).
      rewrite Z.pow_add_r in HlB' by lia. rewrite Z.pow_succ_r in Hq2 by lia.
      change (2 ^ 1) with 2 in HlB'. nia.
Qed.

(** The float nearest to a ratio below [2^B]: its mantissa [M] over [2^k]
    is within half a unit of the ratio, and its digits to two places are
    those of [M / 2^k]. *)
Lemma nearest_spec (neg : bool) (p q B : Z) :
  0 < p -> 0 < q -> 0 <= B <= 52 -> p < q * 2 ^ B -> q < 2 ^ (54 - B) ->
  exists m e M k,
    nearest neg p q = Some (FFinite neg m e)
    /\ 53 - B <= k
    /\ 0 < M
    /\ Z.abs (q * M - p * 2 ^ k) * 2 <= q
    /\ hundredths m e = round_half_even (100 * M) (2 ^ k).
Proof.
  intros Hp Hq HB Hlt Hq2.
  pose proof (ilog2_ratio_upper p q B Hp Hq ltac:(lia) Hlt) as HL.
  unfold nearest.
  destruct (Z.eqb_spec p 0) as [|_]; [lia|].
  set (e := Z.max (ilog2_ratio p q - 52) (-1074)).
  assert (He : -1074 <= e <= B - 53) by (unfold e; lia).
  destruct (pow2_neg_of_neg e ltac:(lia)) as [Hn Hpos].
  rewrite Hn, Hpos, Z.mul_1_r.
  set (k := - e) in *.
  assert (Hk : 53 - B <= k) by (unfold k; lia).
  assert (Hpk : 2 ^ (53 - B) <= 2 ^ k) by (apply Z.pow_le_mono_r; lia).
  assert (Hpk2 : 2 ^ (54 - B) = 2 * 2 ^ (53 - B)).
  { replace (54 - B) with (Z.succ (53 - B)) by lia. apply Z.pow_succ_r. lia. }
  assert (Hpk0 : 0 < 2 ^ (53 - B)) by (apply Z.pow_pos_nonneg; lia).
  set (M := round_half_even (p * 2 ^ k) q).
  assert (HM : 0 < M) by (apply round_half_even_pos; nia).
  pose proof (round_half_even_error (p * 2 ^ k) q Hq) as Herr. fold M in Herr.
  destruct (Z.eqb_spec M (2 ^ 53)) as [HM53 | HM53].
  - assert (H52 : (2 ^ 52 =? 0) = false) by reflexivity. rewrite H52.
    destruct (Z.ltb_spec 971 (e + 1)) as [|_]; [lia|].
    exists (Z.to_pos (2 ^ 52)), (e + 1), M, k.
    repeat split; try assumption.
    unfold hundredths.
    destruct (pow2_neg_of_neg (e + 1) ltac:(lia)) as [Hn' Hpos'].
    rewrite Hn', Hpos', Z.mul_1_r, Z2Pos.id by reflexivity.
    rewrite HM53.
    replace (- (e + 1)) with (k - 1) by (unfold k; lia).
    replace (2 ^ k) with (2 * 2 ^ (k - 1)).
    2:{ rewrite <- Z.pow_succ_r by lia. f_equal. lia. }
    replace (100 * 2 ^ 53) with (2 * (100 * 2 ^ 52)) by reflexivity.
    symmetry. apply round_half_even_scale; [lia|].
    apply Z.pow_pos_nonneg; lia.
  - destruct (Z.eqb_spec M 0) as [|_]; [lia|].
    destruct (Z.ltb_spec 971 e) as [|_]; [lia|].
    exists (Z.to_pos M), e, M, k.
    repeat split; try assumption.
    unfold hundredths.
    rewrite Hn, Hpos, Z.mul_1_r, Z2Pos.id by assumption.
    reflexivity.
Qed.

(** Two decimal places of the float nearest to [a / 10^6]: a nearest
    hundredth of the quotient itself, when [a] is below [2^34 * 10^6]. *)
Lemma hundredths_of_millionths (a M k : Z) :
  0 <= a -> 19 <= k ->
  Z.abs (1000000 * M - a * 2 ^ k) * 2 <= 1000000 ->
  Z.abs (10000 * round_half_even (100 * M) (2 ^ k) - a) <= 5000.
Proof.
  intros Ha Hk HM.
  assert (HD : 2 ^ 19 <= 2 ^ k) by (apply Z.pow_le_mono_r; lia).
  change (2 ^ 19) with 524288 in HD.
  pose proof (round_half_even_error (100 * M) (2 ^ k) ltac:(lia)) as Hh.
  set (D := 2 ^ k) in *.
  set (h := round_half_even (100 * M) D) in *.
  destruct (Z_le_gt_dec (Z.abs (10000 * h - a)) 5000) as [|Hgt]; [assumption|].
  exfalso.
  assert (Hprod : 0 <= (Z.abs (10000 * h - a) - 5001) * D) by nia.
  nia.
Qed.

(** The float nearest to [h / 100] has the two decimal places [h]. *)
Lemma hundredths_round_trip (h M k : Z) :
  0 <= h -> 7 <= k ->
  Z.abs (100 * M - h * 2 ^ k) * 2 <= 100 ->
  round_half_even (100 * M) (2 ^ k) = h.
Proof.
  intros Hh Hk HM.
  assert (HD : 2 ^ 7 <= 2 ^ k) by (apply Z.pow_le_mono_r; lia).
  change (2 ^ 7) with 128 in HD.
  pose proof (round_half_even_error (100 * M) (2 ^ k) ltac:(lia)) as Hr.
  set (D := 2 ^ k) in *.
  set (h' := round_half_even (100 * M) D) in *.
  destruct (Z.eq_dec h' h) as [|Hne]; [assumption|].
  exfalso.
  assert (Hprod : D <= Z.abs (h' - h) * D) by nia.
  nia.
Qed.

End Rounding.

(** ** The loop of [refresh_table] *)

Section Refresh.

#[local] Open Scope method_scope.

Variable w : world.

Ltac run_method :=
  cbv beta iota delta
    [bindM lift ret modify attribute try_except query add_row table_clear
     widget_refresh after_query].

Lemma add_record_row_spec (app data : pyval) (s : state) :
  add_record_row app data s =
  match record_row (gateway s) app data with
  | Ok r => (Ok tt, set_table (table s ++ [r]) s)
  | Err e => (Err e, s)
  end.
Proof.
  unfold add_record_row, record_row. run_method.
  destruct (stake_amt_of data) as [x|e]; [|reflexivity]. cbn [bind].
  destruct (service_id_of data) as [sid|e]; [|reflexivity]. cbn [bind].
  destruct (gateway s); reflexivity.
Qed.

Lemma refresh_row_spec (app node : pyval) (s : state) :
  rpc s = Some node ->
  refresh_row w app s =
  match bind (query_application w (runs s) app node) (shown_row (gateway s) app) with
  | Ok r => (Ok tt, after_query r s)
  | Err e => (Err e, set_runs (S (runs s)) s)
  end.
Proof.
  intros Hrpc. unfold refresh_row.
  cbv beta iota delta [bindM attribute query lift]. rewrite Hrpc.
  destruct (query_application w (runs s) app node) as [data|e]; [|reflexivity].
  cbn [bind]. unfold shown_row.
  destruct (contains "error" data) as [[|]|e]; cbn [bind]; try reflexivity.
  unfold try_except. rewrite add_record_row_spec.
  change (gateway (set_runs (S (runs s)) s)) with (gateway s).
  destruct (record_row (gateway s) app data); reflexivity.
Qed.

Lemma refresh_row_attributes (app : pyval) (s : state) :
  let s' := snd (refresh_row w app s) in
  config s' = config s /\ rpc s' = rpc s /\ gateway s' = gateway s.
Proof.
  destruct (rpc s) as [node|] eqn:Hrpc.
  - rewrite (refresh_row_spec app node s Hrpc).
    destruct (bind _ _); cbn; auto.
  - unfold refresh_row. cbv beta iota delta [bindM attribute]. rewrite Hrpc.
    cbn. auto.
Qed.

Lemma for_each_attributes (apps : list pyval) (s : state) :
  let s' := snd (for_each (refresh_row w) apps s) in
  config s' = config s /\ rpc s' = rpc s /\ gateway s' = gateway s.
Proof.
  revert s. induction apps as [|app rest IH]; intros s; cbn; [auto|].
  unfold bindM.
  pose proof (refresh_row_attributes app s) as Hrow. cbn in Hrow.
  destruct (refresh_row w app s) as [[[]|e] s1]; cbn in *.
  - specialize (IH s1). cbn in IH. intuition congruence.
  - assumption.
Qed.

(** A cycle whose queries all give a row adds these rows, in order. *)
Lemma for_each_rows (node : pyval) (apps : list pyval) :
  forall (s : state) (rows : list Row),
    rpc s = Some node ->
    cycle_rows w (gateway s) node (runs s) apps = Ok rows ->
    for_each (refresh_row w) apps s =
    (Ok tt, set_table (table s ++ rows) (set_runs (runs s + List.length apps) s)).
Proof.
  induction apps as [|app rest IH]; intros s rows Hrpc Hrows.
  - cbn in Hrows. injection Hrows as <-. cbn. unfold ret.
    rewrite app_nil_r, Nat.add_0_r. destruct s; reflexivity.
  - cbn [cycle_rows] in Hrows. cbn [for_each]. unfold bindM.
    rewrite (refresh_row_spec app node s Hrpc).
    destruct (bind (query_application w (runs s) app node) (shown_row (gateway s) app))
      as [r|e]; [|discriminate].
    cbn [bind] in Hrows.
    destruct (cycle_rows w (gateway s) node (S (runs s)) rest) as [rs|e] eqn:Hrest;
      [|discriminate].
    cbn [bind] in Hrows. injection Hrows as <-.
    rewrite (IH (after_query r s) rs); [| exact Hrpc | exact Hrest].
    unfold after_query. cbn. rewrite <- app_assoc. cbn.
    replace (S (runs s + List.length rest)) with (runs s + S (List.length rest))%nat by lia.
    reflexivity.
Qed.

(** A cycle in which a query raises ends there, with the rows before it. *)
Lemma for_each_raises (node : pyval) (apps : list pyval) :
  forall (s : state) (e : exn),
    rpc s = Some node ->
    cycle_rows w (gateway s) node (runs s) apps = Err e ->
    fst (for_each (refresh_row w) apps s) = Err e.
Proof.
  induction apps as [|app rest IH]; intros s e Hrpc Hrows.
  - discriminate.
  - cbn [cycle_rows] in Hrows. cbn [for_each]. unfold bindM.
    rewrite (refresh_row_spec app node s Hrpc).
    destruct (bind (query_application w (runs s) app node) (shown_row (gateway s) app))
      as [r|e0].
    + cbn [bind] in Hrows.
      destruct (cycle_rows w (gateway s) node (S (runs s)) rest) as [rs|e1] eqn:Hrest;
        [discriminate|].
      cbn [bind] in Hrows. injection Hrows as <-.
      apply (IH (after_query r s) e1 Hrpc Hrest).
    + cbn [bind] in Hrows. injection Hrows as <-. reflexivity.
Qed.

Lemma shown_row_address (gw : option pyval) (app data : pyval) (r : Row) :
  shown_row gw app data = Ok r -> address r = app.
Proof.
  unfold shown_row.
  destruct (contains "error" data) as [[|]|e]; cbn [bind]; [| |discriminate].
  - intros [= <-]. reflexivity.
  - unfold record_row.
    destruct (stake_amt_of data); cbn [bind]; [|intros [= <-]; reflexivity].
    destruct (service_id_of data); cbn [bind]; [|intros [= <-]; reflexivity].
    destruct gw; intros [= <-]; reflexivity.
Qed.

Lemma cycle_rows_addresses (gw : option pyval) (node : pyval) (apps : list pyval) :
  forall (n : nat) (rows : list Row),
    cycle_rows w gw node n apps = Ok rows -> map address rows = apps.
Proof.
  induction apps as [|app rest IH]; intros n rows Hrows; cbn in Hrows.
  - injection Hrows as <-. reflexivity.
  - destruct (query_application w n app node) as [data|e]; [|discriminate].
    cbn [bind] in Hrows.
    destruct (shown_row gw app data) as [r|e] eqn:Hr; [|discriminate].
    cbn [bind] in Hrows.
    destruct (cycle_rows w gw node (S n) rest) as [rs|e] eqn:Hrest; [|discriminate].
    cbn [bind] in Hrows. injection Hrows as <-. cbn.
    rewrite (shown_row_address _ _ _ _ Hr), (IH _ _ Hrest). reflexivity.
Qed.

Lemma refresh_table_spec (cfg applications : pyval) (apps : list pyval) (s : state) :
  config s = Some cfg ->
  getitem_key cfg "applications" = Ok applications ->
  iter applications = Ok apps ->
  refresh_table w s = for_each (refresh_row w) apps (set_table [] s).
Proof.
  intros Hcfg Happs Hiter. unfold refresh_table.
  cbv beta iota delta [bindM table_clear modify attribute lift].
  change (config (set_table [] s)) with (config s).
  rewrite Hcfg, Happs, Hiter. reflexivity.
Qed.

(** When every query of the cycle gives a row, the table after a refresh
    has one row for each configured address, in the configured order. *)
Lemma refresh_table_rows (cfg applications node : pyval) (apps : list pyval)
      (rows : list Row) (s : state) :
  config s = Some cfg -> rpc s = Some node ->
  getitem_key cfg "applications" = Ok applications ->
  iter applications = Ok apps ->
  cycle_rows w (gateway s) node (runs s) apps = Ok rows ->
  refresh_table w s = (Ok tt, set_table rows (set_runs (runs s + List.length apps) s))
  /\ List.length rows = List.length apps
  /\ map address rows = apps.
Proof.
  intros Hcfg Hrpc Happs Hiter Hrows.
  rewrite (refresh_table_spec cfg applications apps s Hcfg Happs Hiter).
  pose proof (cycle_rows_addresses _ _ _ _ _ Hrows) as Haddr.
  split; [|split; [|exact Haddr]].
  - rewrite (for_each_rows node apps (set_table [] s) rows Hrpc Hrows). reflexivity.
  - rewrite <- Haddr. symmetry. apply length_map.
Qed.

Lemma refresh_table_attributes (s : state) :
  let s' := snd (refresh_table w s) in
  config s' = config s /\ rpc s' = rpc s /\ gateway s' = gateway s.
Proof.
  unfold refresh_table.
  cbv beta iota delta [bindM table_clear modify attribute lift].
  change (config (set_table [] s)) with (config s).
  destruct (config s) as [cfg|] eqn:Hcfg; [|cbn; auto].
  destruct (getitem_key cfg "applications") as [applications|]; [|cbn; auto].
  destruct (iter applications) as [apps|]; [|cbn; auto].
  pose proof (for_each_attributes apps (set_table [] s)) as H.
  cbn in H. rewrite Hcfg in H. exact H.
Qed.

End Refresh.

(** ** Rows of failed and successful queries *)

Section Rows.

#[local] Open Scope method_scope.

Variable w : world.

(** A non-zero exit of the client is turned into an error record. *)
Lemma query_application_nonzero_exit (n : nat) (app node : pyval) (text : string) :
  subprocess_run w n (command app node) = CalledProcessError text ->
  query_application w n app node = Ok (error_record ("Subprocess failed: " ++ text)).
Proof. intros H. unfold query_application. rewrite H. reflexivity. Qed.

(** C2, on the code: when [subprocess.run] raises anything other than
    [CalledProcessError] (the client program cannot be started, say), the
    handler of [query_application] reads the unbound [result], so the call
    raises [UnboundLocalError] and returns no error value. *)
Theorem query_application_run_raised (n : nat) (app node : pyval) (e : exn) :
  subprocess_run w n (command app node) = RunRaised e ->
  query_application w n app node = Err result_unbound.
Proof. intros H. unfold query_application. rewrite H. reflexivity. Qed.

(** C5: when the value the query returned has a top-level error indicator
    (["error" in data] holds), the row of that address is exactly
    [address, "Error", "-", "-"]. *)
Theorem error_indicator_row (app node data : pyval) (s : state) :
  rpc s = Some node ->
  query_application w (runs s) app node = Ok data ->
  contains "error" data = Ok true ->
  refresh_row w app s =
  (Ok tt,
   set_table (table s ++ [mkRow app (VStr "Error") (VStr "-") (VStr "-")])
             (set_runs (S (runs s)) s)).
Proof.
  intros Hrpc Hq Hin. rewrite (refresh_row_spec w app node s Hrpc), Hq.
  cbn [bind]. unfold shown_row. rewrite Hin. reflexivity.
Qed.





End Rows.

(** ** The stake cell *)

Section Stake.

Lemma round_half_even_nonneg (p q : Z) :
  0 < q -> 0 <= p -> 0 <= round_half_even p q.
Proof.
  intros Hq Hp. pose proof (round_half_even_error p q Hq). nia.
Qed.

(** [f"{round(n / 1_000_000, 2):.2f}"] for an integer [n] below
    [2^34 * 10^6] in magnitude: the sign of [n], then a hundredth nearest to
    [|n| / 10^6]. *)
Lemma stake_text_nearest (n : Z) :
  Z.abs n < 2 ^ 34 * 10 ^ 6 ->
  exists y h,
    bind (truediv n 1000000) round2 = Ok y
    /\ format_2f y = decimal2 (n <? 0) h
    /\ 0 <= h
    /\ Z.abs (10000 * h - Z.abs n) <= 5000.
Proof.
  intros Hn. unfold truediv.
  change (1000000 =? 0) with false. change (1000000 <? 0) with false.
  change (Z.abs 1000000) with 1000000. cbv iota. rewrite xorb_false_r.
  set (neg := n <? 0). set (a := Z.abs n) in *.
  destruct (Z.eq_dec a 0) as [Ha0 | Ha0].
  - rewrite Ha0. exists (FZero neg), 0. cbn. repeat split; lia.
  - assert (Ha : 0 < a) by (unfold a; lia).
    destruct (nearest_spec neg a 1000000 34 Ha ltac:(lia) ltac:(lia))
      as (m & e & M & k & Hnear & Hk & HM & Herr & Hh).
    { change (10 ^ 6) with 1000000 in Hn. lia. }
    { reflexivity. }
    rewrite Hnear. cbn [bind round2].
    pose proof (hundredths_of_millionths a M k ltac:(lia) ltac:(lia) Herr) as Hclose.
    rewrite <- Hh in Hclose.
    assert (Hh0 : 0 <= hundredths m e).
    { rewrite Hh. apply round_half_even_nonneg; [apply Z.pow_pos_nonneg|]; lia. }
    set (h := hundredths m e) in *.
    destruct (Z.eq_dec h 0) as [Hz | Hz].
    + rewrite Hz. exists (FZero neg), 0. cbn. rewrite Hz in Hclose.
      repeat split; try lia.
    + assert (Hbound : h < 100 * 2 ^ 35).
      { change (2 ^ 34 * 10 ^ 6) with 17179869184000000 in Hn.
        change (100 * 2 ^ 35) with 3435973836800. lia. }
      destruct (nearest_spec neg h 100 35 ltac:(lia) ltac:(lia) ltac:(lia) Hbound)
        as (m2 & e2 & M2 & k2 & Hnear2 & Hk2 & HM2 & Herr2 & Hh2).
      { reflexivity. }
      rewrite Hnear2. exists (FFinite neg m2 e2), h. cbn [format_2f].
      rewrite Hh2, (hundredths_round_trip h M2 k2 ltac:(lia) ltac:(lia) Herr2).
      repeat split; assumption.
Qed.

End Stake.

(** ** Text of a command *)

Section Strip.

Lemma string_app_nil_r (s : string) : s ++ EmptyString = s.
Proof. induction s as [|c s IH]; cbn; [reflexivity | now rewrite IH]. Qed.

Lemma string_app_assoc (a b c : string) : (a ++ b) ++ c = a ++ (b ++ c).
Proof. induction a as [|x a IH]; cbn; [reflexivity | now rewrite IH]. Qed.

Lemma string_rev_onto_app (s acc : string) :
  string_rev_onto s acc = string_rev s ++ acc.
Proof.
  unfold string_rev. revert acc.
  induction s as [|c s IH]; intros acc; cbn; [reflexivity|].
  rewrite (IH (String c acc)), (IH (String c EmptyString)), string_app_assoc.
  reflexivity.
Qed.

Lemma string_rev_cons (c : ascii) (s : string) :
  string_rev (String c s) = string_rev s ++ str1 c.
Proof. unfold string_rev at 1. cbn. apply string_rev_onto_app. Qed.

Lemma string_rev_app (a b : string) :
  string_rev (a ++ b) = string_rev b ++ string_rev a.
Proof.
  induction a as [|c a IH]; cbn [append].
  - change (string_rev EmptyString) with EmptyString.
    now rewrite string_app_nil_r.
  - rewrite !string_rev_cons, IH, string_app_assoc. reflexivity.
Qed.

Lemma string_rev_involutive (s : string) : string_rev (string_rev s) = s.
Proof.
  induction s as [|c s IH]; [reflexivity|].
  rewrite string_rev_cons, string_rev_app, IH. reflexivity.
Qed.

Lemma all_space_app (a b : string) :
  all_space (a ++ b) = all_space a && all_space b.
Proof.
  induction a as [|c a IH]; cbn; [reflexivity|].
  rewrite IH. apply andb_assoc.
Qed.

Lemma all_space_rev (s : string) : all_space (string_rev s) = all_space s.
Proof.
  induction s as [|c s IH]; [reflexivity|].
  rewrite string_rev_cons, all_space_app, IH. cbn.
  rewrite andb_true_r. apply andb_comm.
Qed.

Lemma lstrip_split (s : string) :
  exists l, s = l ++ lstrip s /\ all_space l = true.
Proof.
  induction s as [|c s (l & Hs & Hl)]; cbn.
  - exists EmptyString. split; reflexivity.
  - destruct (is_space c) eqn:Hc.
    + exists (String c l). cbn. rewrite Hc, Hl, <- Hs. split; reflexivity.
    + exists EmptyString. split; reflexivity.
Qed.

Lemma lstrip_spaces (l t : string) :
  all_space l = true -> lstrip (l ++ t) = lstrip t.
Proof.
  induction l as [|c l IH]; cbn; [reflexivity|].
  intros H. apply andb_true_iff in H as [Hc Hl]. rewrite Hc. auto.
Qed.

(** [strip] gives ["q"] exactly for the texts made of ["q"] between
    white space. *)
Lemma strip_is_q (value : string) :
  strip value = "q" <->
  exists l r, value = l ++ "q" ++ r /\ all_space l = true /\ all_space r = true.
Proof.
  unfold strip, rstrip. split.
  - intros H.
    destruct (lstrip_split value) as (l & Hv & Hl).
    set (t := lstrip value) in *.
    apply (f_equal string_rev) in H. rewrite string_rev_involutive in H.
    change (string_rev "q") with "q" in H.
    destruct (lstrip_split (string_rev t)) as (l' & Ht & Hl').
    rewrite H in Ht.
    apply (f_equal string_rev) in Ht.
    rewrite string_rev_involutive, string_rev_app in Ht.
    change (string_rev "q") with "q" in Ht.
    exists l, (string_rev l'). rewrite Hv, Ht.
    repeat split; [assumption|]. now rewrite all_space_rev.
  - intros (l & r & -> & Hl & Hr).
    rewrite (lstrip_spaces l _ Hl). cbn [append lstrip].
    change (is_space "q") with false. cbv iota.
    rewrite string_rev_cons.
    rewrite (lstrip_spaces (string_rev r) _) by now rewrite all_space_rev.
    reflexivity.
Qed.

End Strip.

(** ** Loading the configuration and starting up *)

Section Boot.

#[local] Open Scope method_scope.

Variable w : world.

(** C8: [load_config] returns exactly when the file can be read, its text
    parses and the parsed document is a mapping with the wrapper key, and
    then it returns the value under that key; in every other case (the file
    is missing or unreadable, the text does not parse, the wrapper is
    absent) it raises. *)
Theorem load_config_spec (path : string) :
  (forall cfg,
      load_config w path = Ok cfg <->
      exists raw doc,
        read_file w path = Ok raw /\ yaml_safe_load w raw = Ok doc
        /\ wrapper_of doc = Some cfg)
  /\ ((exists e, load_config w path = Err e) <->
      (exists e, read_file w path = Err e)
      \/ (exists raw e, read_file w path = Ok raw /\ yaml_safe_load w raw = Err e)
      \/ (exists raw doc,
             read_file w path = Ok raw /\ yaml_safe_load w raw = Ok doc
             /\ wrapper_of doc = None)).
Proof.
  unfold load_config.
  destruct (read_file w path) as [raw|e1] eqn:Hread; cbn [bind].
  - destruct (yaml_safe_load w raw) as [doc|e2] eqn:Hyaml; cbn [bind].
    + assert (Hdoc : forall cfg, bind (keys doc) (fun _ => getitem_key doc "config") = Ok cfg
                                 <-> wrapper_of doc = Some cfg).
      { intros cfg. destruct doc; cbn; try (split; discriminate).
        destruct (assoc "config" kvs); split; congruence. }
      assert (Hnone : (exists e, bind (keys doc) (fun _ => getitem_key doc "config") = Err e)
                      <-> wrapper_of doc = None).
      { destruct doc; cbn; try (split; [reflexivity | eexists; reflexivity]).
        destruct (assoc "config" kvs); split; try congruence.
        - intros [e He]. discriminate.
        - eexists; reflexivity. }
      split.
      * intros cfg. rewrite Hdoc. split.
        -- intros H. exists raw, doc. auto.
        -- intros (raw' & doc' & Hr & Hd & H).
           injection Hr as <-. rewrite Hyaml in Hd. injection Hd as <-. exact H.
      * rewrite Hnone. split.
        -- intros H. right. right. exists raw, doc. auto.
        -- intros [[e He] | [(raw' & e & Hr & He) | (raw' & doc' & Hr & Hd & H)]].
           ++ discriminate.
           ++ injection Hr as <-. rewrite Hyaml in He. discriminate.
           ++ injection Hr as <-. rewrite Hyaml in Hd. injection Hd as <-. exact H.
    + split.
      * intros cfg. split; [discriminate|].
        intros (raw' & doc' & Hr & Hd & _).
        injection Hr as <-. rewrite Hyaml in Hd. discriminate.
      * split; [|eexists; reflexivity].
        intros _. right. left. exists raw, e2. auto.
  - split.
    + intros cfg. split; [discriminate|]. intros (raw & doc & He & _). discriminate.
    + split; [|eexists; reflexivity]. intros _. left. exists e1. reflexivity.
Qed.

Lemma on_mount_spec (s : state) :
  on_mount w s =
  match load_config w "config.yaml" with
  | Err e => (Err e, s)
  | Ok cfg =>
      match getitem_key cfg "rpc_endpoint" with
      | Err e => (Err e, set_config cfg s)
      | Ok node =>
          match bind (getitem_key cfg "gateways") (fun g => getitem_index g 0) with
          | Err e => (Err e, set_rpc node (set_config cfg s))
          | Ok first =>
              (Ok tt,
               set_finish_boot_pending true
                 (set_gateway first (set_rpc node (set_config cfg s))))
          end
      end
  end.
Proof.
  unfold on_mount. cbv beta iota delta [bindM lift modify attribute].
  destruct (load_config w "config.yaml") as [cfg|e]; [|reflexivity].
  cbn [config set_config].
  destruct (getitem_key cfg "rpc_endpoint") as [node|e]; [|reflexivity].
  cbn [config set_config set_rpc].
  destruct (getitem_key cfg "gateways") as [g|e]; [|reflexivity].
  cbn [bind].
  destruct (getitem_index g 0) as [first|e]; reflexivity.
Qed.

Lemma on_mount_mounted (s s' : state) :
  on_mount w s = (Ok tt, s') -> mounted w s' /\ finish_boot_pending s' = true.
Proof.
  rewrite on_mount_spec.
  destruct (load_config w "config.yaml") as [cfg|e] eqn:Hcfg; [|discriminate].
  destruct (getitem_key cfg "rpc_endpoint") as [node|e] eqn:Hnode; [|discriminate].
  destruct (getitem_key cfg "gateways") as [g|e] eqn:Hg; [|discriminate].
  cbn [bind].
  destruct (getitem_index g 0) as [first|e] eqn:Hfirst; [|discriminate].
  intros [= <-]. split; [|reflexivity].
  exists cfg, node, g, first. cbn. repeat split; assumption.
Qed.

Lemma refresh_table_mounted (s : state) :
  mounted w s -> mounted w (snd (refresh_table w s)).
Proof.
  intros (cfg & node & g & first & H1 & H2 & H3 & H4 & H5 & H6 & H7).
  pose proof (refresh_table_attributes w s) as H. cbv zeta in H.
  destruct H as (Hc & Hr & Hg).
  exists cfg, node, g, first. rewrite Hc, Hr, Hg. repeat split; assumption.
Qed.


Lemma getitem_key_error_class (v : pyval) (k : string) (e : exn) :
  getitem_key v k = Err e -> exn_type e = KeyError \/ exn_type e = TypeError.
Proof.
  destruct v; cbn; try (intros [= <-]; cbn; auto).
  destruct (assoc k kvs); [discriminate|]. intros [= <-]. cbn. auto.
Qed.

Lemma getitem_index_error_class (v : pyval) (i : Z) (e : exn) :
  getitem_index v i = Err e ->
  is_lookup_error (exn_type e) = true \/ exn_type e = TypeError.
Proof.
  destruct v; cbn; try (intros [= <-]; cbn; auto).
  - destruct (_ <? 0); [intros [= <-]; cbn; auto|].
    destruct (string_nth _ s); [discriminate|]. intros [= <-]. cbn. auto.
  - destruct (_ <? 0); [intros [= <-]; cbn; auto|].
    destruct (nth_error l _); [discriminate|]. intros [= <-]. cbn. auto.
Qed.

(** Whatever [load_config] returned, a configuration without one of the
    three entries, or with an empty gateway list, never starts: start-up
    ends in a [KeyError], an [IndexError] or, when the configuration is no
    mapping or its [gateways] cannot be subscripted, a [TypeError]. *)
Lemma incomplete_config_never_boots (cfg : pyval) (s : state) :
  load_config w "config.yaml" = Ok cfg ->
  lacks_entry cfg "rpc_endpoint" = true \/ lacks_entry cfg "gateways" = true
  \/ lacks_entry cfg "applications" = true
  \/ getitem_key cfg "gateways" = Ok (VList []) ->
  exists e,
    fst (boot w s) = Err e
    /\ (is_lookup_error (exn_type e) = true \/ exn_type e = TypeError).
Proof.
  intros Hload Hlack. unfold boot, bindM. rewrite on_mount_spec, Hload.
  destruct (getitem_key cfg "rpc_endpoint") as [node|e] eqn:Hnode.
  2:{ exists e. split; [reflexivity|].
      destruct (getitem_key_error_class _ _ _ Hnode) as [-> | ->]; auto. }
  destruct (getitem_key cfg "gateways") as [g|e] eqn:Hg; cbn [bind].
  2:{ exists e. split; [reflexivity|].
      destruct (getitem_key_error_class _ _ _ Hg) as [-> | ->]; auto. }
  destruct (getitem_index g 0) as [first|e] eqn:Hfirst.
  2:{ exists e. split; [reflexivity|]. apply (getitem_index_error_class _ _ _ Hfirst). }
  destruct cfg as [| | | | | |kvs]; try discriminate.
  cbn in Hnode, Hg. unfold lacks_entry, has_key in Hlack.
  destruct (assoc "rpc_endpoint" kvs); [|discriminate].
  destruct (assoc "gateways" kvs); [|discriminate].
  injection Hg as ->.
  destruct Hlack as [H | [H | [H | H]]]; try discriminate.
  - cbn [fst snd]. unfold run_pending.
    cbn [finish_boot_pending set_finish_boot_pending].
    unfold finish_boot, refresh_table.
    cbv beta iota delta [bindM modify table_clear attribute lift]. cbn.
    destruct (assoc "applications" kvs); [discriminate|].
    eexists. split; [reflexivity|]. left. reflexivity.
  - injection H as ->. discriminate.
Qed.

End Boot.

(** ** Refreshing and commands *)

Section Dashboard.

#[local] Open Scope method_scope.

Variable w : world.

(** C4: for a record without an error indicator whose [stake.amount] is a
    text that [int] reads as [n] (below [2^34 * 10^6] in magnitude) and
    whose [service_configs] is a list, the row added has: the address; the
    sign of [n] and a hundredth [h] nearest to [|n| / 1,000,000], written
    with two decimals; the [service_id] of the first entry, or ["-"] when
    the list is empty; the first gateway of the configuration. *)
Theorem record_row_cells (app node : pyval) (kvs stake_kvs : list (string * pyval))
        (amount : string) (n : Z) (configs : list pyval) (s : state) :
  mounted w s ->
  rpc s = Some node ->
  query_application w (runs s) app node = Ok (VDict kvs) ->
  has_key "error" kvs = false ->
  assoc "stake" kvs = Some (VDict stake_kvs) ->
  assoc "amount" stake_kvs = Some (VStr amount) ->
  int_of_str amount = Ok n ->
  Z.abs n < 2 ^ 34 * 10 ^ 6 ->
  assoc "service_configs" kvs = Some (VList configs) ->
  (forall first rest, configs = first :: rest ->
                      exists sid, getitem_key first "service_id" = Ok sid) ->
  exists h sid first_gateway,
    0 <= h /\ Z.abs (10000 * h - Z.abs n) <= 5000
    /\ match configs with
       | [] => sid = VStr "-"
       | first :: _ => getitem_key first "service_id" = Ok sid
       end
    /\ (exists cfg gateways,
           config s = Some cfg /\ getitem_key cfg "gateways" = Ok gateways
           /\ getitem_index gateways 0 = Ok first_gateway)
    /\ refresh_row w app s =
       (Ok tt,
        set_table
          (table s ++ [mkRow app (VStr (decimal2 (n <? 0) h)) sid first_gateway])
          (set_runs (S (runs s)) s)).
Proof.
  intros (cfg & node' & g & first_gateway & _ & Hcfg & _ & _ & Hg & Hfirst & Hgw)
         Hrpc Hq Herr Hstake Hamount Hint Hn Hsc Hsid.
  destruct (stake_text_nearest n Hn) as (y & h & Hy & Hfmt & Hh0 & Hh).
  assert (Hservice : exists sid,
             service_id_of (VDict kvs) = Ok sid
             /\ match configs with
                | [] => sid = VStr "-"
                | first :: _ => getitem_key first "service_id" = Ok sid
                end).
  { unfold service_id_of. cbn [getitem_key]. rewrite Hsc. cbn [bind].
    destruct configs as [|first rest].
    - exists (VStr "-"). split; reflexivity.
    - destruct (Hsid first rest eq_refl) as [sid Hs]. exists sid.
      cbn. rewrite Hs. split; reflexivity. }
  destruct Hservice as (sid & Hservice & Hsidspec).
  exists h, sid, first_gateway.
  split; [exact Hh0|]. split; [exact Hh|]. split; [exact Hsidspec|].
  split; [exists cfg, g; auto|].
  rewrite (refresh_row_spec w app node s Hrpc), Hq. cbn [bind].
  unfold shown_row. cbn [contains]. rewrite Herr. cbn [bind].
  unfold record_row, stake_amt_of. cbn [getitem_key]. rewrite Hstake. cbn [bind getitem_key].
  rewrite Hamount. cbn [bind int]. rewrite Hint. cbn [bind].
  rewrite Hy. cbn [bind]. rewrite Hservice. cbn [bind]. rewrite Hgw, Hfmt.
  reflexivity.
Qed.

(** C9: a refresh clears the table before it adds rows, so its outcome does
    not depend on the rows the table had; and when the refresh that follows
    another one completes, the table holds the rows of its own queries
    only. *)
Theorem refresh_replaces_rows (s : state) :
  (forall rows, refresh_table w (set_table rows s) = refresh_table w s)
  /\ (forall cfg applications node apps rows,
         config s = Some cfg -> rpc s = Some node ->
         getitem_key cfg "applications" = Ok applications ->
         iter applications = Ok apps ->
         let s1 := snd (refresh_table w s) in
         cycle_rows w (gateway s) node (runs s1) apps = Ok rows ->
         fst (refresh_table w s1) = Ok tt
         /\ table (snd (refresh_table w s1)) = rows).
Proof.
  split.
  - intros rows. reflexivity.
  - intros cfg applications node apps rows Hcfg Hrpc Happs Hiter s1 Hrows.
    pose proof (refresh_table_attributes w s) as H. cbv zeta in H.
    destruct H as (Hc & Hr & Hg). fold s1 in Hc, Hr, Hg.
    rewrite <- Hg in Hrows. rewrite <- Hc in Hcfg. rewrite <- Hr in Hrpc.
    destruct (refresh_table_rows w cfg applications node apps rows s1
                Hcfg Hrpc Happs Hiter Hrows) as (Heq & _ & _).
    rewrite Heq. split; reflexivity.
Qed.

(** C7: submitting a command hides the input and asks for a repaint; the
    text is stripped of white space at both ends, and the application exits
    exactly when what is left is ["q"], that is when the text is ["q"]
    between white space.  Nothing else changes: not the table, not the
    configuration, and the external program is not run. *)
Theorem on_input_submitted_spec (value : string) (s : state) :
  let s' := snd (on_input_submitted value s) in
  fst (on_input_submitted value s) = Ok tt
  /\ cmd_display s' = false
  /\ table s' = table s /\ runs s' = runs s
  /\ config s' = config s /\ rpc s' = rpc s /\ gateway s' = gateway s
  /\ splash s' = splash s
  /\ ((exists l r, value = l ++ "q" ++ r /\ all_space l = true /\ all_space r = true)
      -> exited s' = true)
  /\ (~ (exists l r, value = l ++ "q" ++ r /\ all_space l = true /\ all_space r = true)
      -> exited s' = exited s).
Proof.
  unfold on_input_submitted.
  cbv beta iota zeta delta [bindM modify widget_refresh ret].
  pose proof (strip_is_q value) as Hq.
  destruct (String.eqb_spec (strip value) "q") as [Heq | Hne]; cbn.
  - repeat split; try reflexivity. intros Hno. exfalso. apply Hno, Hq, Heq.
  - repeat split; try reflexivity. intros Hyes. exfalso. apply Hne, Hq, Hyes.
Qed.

End Dashboard.

(** ** One row for each address *)

Section Cycle.

Variable w : world.

(** When no invocation raises and every value returned supports the
    membership test, a cycle gives a row for every address. *)
Lemma cycle_rows_total (gw : option pyval) (node : pyval) :
  (forall n app, exists data has_error,
      query_application w n app node = Ok data
      /\ contains "error" data = Ok has_error) ->
  forall apps n, exists rows, cycle_rows w gw node n apps = Ok rows.
Proof.
  intros Hall. induction apps as [|app rest IH]; intros n; cbn.
  - exists []. reflexivity.
  - destruct (Hall n app) as (data & b & Hq & Hin). rewrite Hq. cbn [bind].
    unfold shown_row. rewrite Hin. cbn [bind].
    destruct (IH (S n)) as [rs Hrs].
    destruct b.
    + cbn [bind]. rewrite Hrs. eexists. reflexivity.
    + destruct (record_row gw app data); cbn [bind]; rewrite Hrs;
        eexists; reflexivity.
Qed.

End Cycle.

(** ** The definitions at work *)

Section Runs.

Import Demo DemoArt.

(** C1, on the code: with four configured addresses and a machine where
    the client program cannot be started, the first query raises, the
    refresh ends with [UnboundLocalError] and the table has no row. *)
Theorem refresh_aborts_without_client :
  let s := mounted_state world_without_client in
  getitem_key configuration "applications" = Ok (VList applications)
  /\ List.length applications = 4%nat
  /\ config s = Some configuration
  /\ refresh_table world_without_client s
     = (Err result_unbound, set_runs 1 (set_table [] s))
  /\ table (snd (refresh_table world_without_client s)) = [].
Proof. vm_compute. repeat split. Qed.

(** The same configuration with a client that answers: four rows, in the
    configured order. *)
Example refresh_with_client :
  let s := mounted_state the_world in
  map address (table (snd (refresh_table the_world s))) = applications
  /\ map stake (table (snd (refresh_table the_world s)))
     = [VStr "2.50"; VStr "Error"; VStr "Error";
        VStr "ParseErr: invalid literal for int() with base 10: '12a'"].
Proof. vm_compute. split; reflexivity. Qed.

(** A reply whose [application] is [null] is neither an error record nor a
    record: the membership test raises outside the [try]. *)
Example refresh_row_null_application :
  fst (refresh_row the_world (VStr "pokt1null") (mounted_state the_world))
  = Err (Raise TypeError "argument of type 'NoneType' is not iterable").
Proof. vm_compute. reflexivity. Qed.

Lemma query_application_run_raised_witness :
  query_application world_without_client 0 (VStr "pokt1good")
    (VStr "https://rpc.example:443") = Err result_unbound.
Proof.
  apply (query_application_run_raised world_without_client 0 (VStr "pokt1good")
           (VStr "https://rpc.example:443")
           (Raise (OtherException "FileNotFoundError")
                  "[Errno 2] No such file or directory: 'pocketd'")).
  reflexivity.
Defined.

Lemma error_indicator_row_witness :
  refresh_row the_world (VStr "pokt1exit") (mounted_state the_world) =
  (Ok tt,
   set_table [mkRow (VStr "pokt1exit") (VStr "Error") (VStr "-") (VStr "-")]
             (set_runs 1 (mounted_state the_world))).
Proof.
  apply (error_indicator_row the_world (VStr "pokt1exit")
           (VStr "https://rpc.example:443")
           (error_record
              ("Subprocess failed: "
               ++ "Command 'pocketd' returned non-zero exit status 1."))
           (mounted_state the_world)); vm_compute; reflexivity.
Defined.




(** C4 as stated fails beyond the range: for the amount
    17179883163714999 the cell reads 17179883163.72, and the only hundredth
    nearest to the quotient is 17179883163.71. *)
Lemma stake_beyond_range :
  add_record_row (VStr "pokt1app") (record (VStr "17179883163714999") ["anvil"])
                 (mounted_state the_world)
  = (Ok tt,
     set_table [mkRow (VStr "pokt1app") (VStr "17179883163.72") (VStr "anvil")
                      (VStr "pokt1gateway")]
               (mounted_state the_world))
  /\ int_of_str "17179883163714999" = Ok 17179883163714999
  /\ forall h, Z.abs (10000 * h - 17179883163714999) <= 5000 ->
               decimal2 false h = "17179883163.71".
Proof.
  split; [|split].
  - vm_compute. reflexivity.
  - vm_compute. reflexivity.
  - intros h Hh. assert (h = 1717988316371) as -> by lia.
    vm_compute. reflexivity.
Qed.

(** An exact tie goes as the float decides: 15000 millionths read 0.01. *)
Example stake_15000 :
  bind (stake_amt_of (record (VStr "15000") [])) (fun x => Ok (format_2f x))
  = Ok "0.01".
Proof. vm_compute. reflexivity. Qed.

Lemma record_row_cells_witness :
  exists h sid first_gateway,
    0 <= h /\ Z.abs (10000 * h - Z.abs 2500000) <= 5000
    /\ getitem_key (VDict [("service_id", VStr "anvil")]) "service_id" = Ok sid
    /\ (exists cfg gateways,
           config (mounted_state the_world) = Some cfg
           /\ getitem_key cfg "gateways" = Ok gateways
           /\ getitem_index gateways 0 = Ok first_gateway)
    /\ refresh_row the_world (VStr "pokt1good") (mounted_state the_world) =
       (Ok tt,
        set_table
          (table (mounted_state the_world)
           ++ [mkRow (VStr "pokt1good") (VStr (decimal2 (2500000 <? 0) h)) sid
                     first_gateway])
          (set_runs (S (runs (mounted_state the_world))) (mounted_state the_world))).
Proof.
  apply (record_row_cells the_world (VStr "pokt1good")
           (VStr "https://rpc.example:443")
           [("address", VStr "pokt1app");
            ("stake", VDict [("denom", VStr "upokt"); ("amount", VStr "2500000")]);
            ("service_configs",
             VList [VDict [("service_id", VStr "anvil")];
                    VDict [("service_id", VStr "eth")]])]
           [("denom", VStr "upokt"); ("amount", VStr "2500000")]
           "2500000" 2500000
           [VDict [("service_id", VStr "anvil")]; VDict [("service_id", VStr "eth")]]
           (mounted_state the_world)).
  - exists configuration, (VStr "https://rpc.example:443"),
      (VList [VStr "pokt1gateway"; VStr "pokt1other"]), (VStr "pokt1gateway").
    vm_compute. repeat split.
  - vm_compute. reflexivity.
  - vm_compute. reflexivity.
  - vm_compute. reflexivity.
  - vm_compute. reflexivity.
  - vm_compute. reflexivity.
  - vm_compute. reflexivity.
  - vm_compute. reflexivity.
  - vm_compute. reflexivity.
  - intros first rest [= <- <-]. exists (VStr "anvil"). reflexivity.
Defined.

(** The amount 2500000 is displayed as 2.50. *)
Example stake_2500000 :
  map stake (table (snd (refresh_row the_world (VStr "pokt1good")
                           (mounted_state the_world))))
  = [VStr "2.50"].
Proof. vm_compute. reflexivity. Qed.


(** The two accepted files at work: the subscript of [None] raises
    [TypeError], in [on_mount]. *)
Example boot_with_null_entries :
  load_config world_null_config "config.yaml" = Ok VNone
  /\ fst (boot world_null_config initial)
     = Err (Raise TypeError "'NoneType' object is not subscriptable")
  /\ fst (boot world_null_gateways initial)
     = Err (Raise TypeError "'NoneType' object is not subscriptable").
Proof. vm_compute. repeat split. Qed.


(** Without [applications], [on_mount] itself succeeds; the [KeyError]
    comes from the refresh that [finish_boot] runs. *)
Example boot_without_applications :
  fst (on_mount world_no_applications initial) = Ok tt
  /\ fst (boot world_no_applications initial)
     = Err (Raise KeyError "'applications'").
Proof. vm_compute. split; reflexivity. Qed.

End Runs.

(** * Further properties of the code *)

(** ** What a query and a turn of the loop can do *)

Section Outcomes.

#[local] Open Scope method_scope.

Variable w : world.


Lemma contains_raises_iff (data : pyval) :
  (exists e, contains "error" data = Err e) <-> is_scalar data = true.
Proof.
  destruct data; cbn; split; intros H; try discriminate; try reflexivity;
    try (destruct H; discriminate); try (eexists; reflexivity).
Qed.

Lemma shown_row_raises (gw : option pyval) (app data : pyval) :
  (exists e, shown_row gw app data = Err e) <-> is_scalar data = true.
Proof.
  rewrite <- contains_raises_iff. unfold shown_row.
  destruct (contains "error" data) as [[|]|e]; cbn [bind].
  - split; intros [e He]; discriminate.
  - destruct (record_row gw app data); split; intros [e' He]; discriminate.
  - split; intros _; eexists; reflexivity.
Qed.

Lemma refresh_row_raise_conditions (app node : pyval) (s : state) :
  rpc s = Some node ->
  ((exists e, fst (refresh_row w app s) = Err e) <->
   (exists e, subprocess_run w (runs s) (command app node) = RunRaised e)
   \/ (exists stdout doc data,
          subprocess_run w (runs s) (command app node) = Completed stdout
          /\ json_loads w stdout = Ok doc
          /\ getitem_key doc "application" = Ok data
          /\ is_scalar data = true)).
Proof.
  intros Hrpc. rewrite (refresh_row_spec w app node s Hrpc).
  unfold query_application.
  destruct (subprocess_run w (runs s) (command app node)) as [stdout|text|e0].
  - destruct (json_loads w stdout) as [doc|e1] eqn:Hdoc; cbn [bind].
    + destruct (getitem_key doc "application") as [data|e2] eqn:Hdata; cbn [bind].
      * pose proof (shown_row_raises (gateway s) app data) as Hs.
        split.
        -- intros [e He]. right. exists stdout, doc, data.
           repeat split; try assumption. apply Hs.
           destruct (shown_row (gateway s) app data) as [r|e']; [discriminate|].
           eexists; reflexivity.
        -- intros [[e He] | (stdout' & doc' & data' & Hr & Hd & Hg & Hsc)];
             [discriminate|].
           injection Hr as <-. rewrite Hdoc in Hd. injection Hd as <-.
           rewrite Hdata in Hg. injection Hg as <-.
           apply Hs in Hsc. destruct Hsc as [e He]. rewrite He. eexists; reflexivity.
      * cbn. split.
        -- intros [e He]. discriminate.
        -- intros [[e He] | (stdout' & doc' & data' & Hr & Hd & Hg & _)];
             [discriminate|].
           injection Hr as <-. rewrite Hdoc in Hd. injection Hd as <-.
           rewrite Hdata in Hg. discriminate.
    + cbn. split.
      * intros [e He]. discriminate.
      * intros [[e He] | (stdout' & doc' & data' & Hr & Hd & _)]; [discriminate|].
        injection Hr as <-. rewrite Hdoc in Hd. discriminate.
  - cbn. split.
    + intros [e He]. discriminate.
    + intros [[e He] | (stdout' & doc' & data' & Hr & _)]; discriminate.
  - cbn. split.
    + intros _. left. eexists; reflexivity.
    + intros _. eexists; reflexivity.
Qed.

(** After [on_mount], a turn of the loop raises exactly when the client
    could not be run at all, or when the [application] member of its
    output is [null], a boolean or a number, and then the table is as it
    was; every other outcome returns and adds one row, for that address, at
    the end of the table. *)
Theorem refresh_row_raises_iff (app node : pyval) (s : state) :
  rpc s = Some node ->
  ((exists e, fst (refresh_row w app s) = Err e) <->
   (exists e, subprocess_run w (runs s) (command app node) = RunRaised e)
   \/ (exists stdout doc data,
          subprocess_run w (runs s) (command app node) = Completed stdout
          /\ json_loads w stdout = Ok doc
          /\ getitem_key doc "application" = Ok data
          /\ is_scalar data = true))
  /\ (forall e, fst (refresh_row w app s) = Err e ->
                table (snd (refresh_row w app s)) = table s)
  /\ ((forall e, fst (refresh_row w app s) <> Err e) ->
      exists r,
        address r = app
        /\ refresh_row w app s =
           (Ok tt, set_table (table s ++ [r]) (set_runs (S (runs s)) s))).
Proof.
  intros Hrpc. split; [exact (refresh_row_raise_conditions app node s Hrpc)|].
  rewrite (refresh_row_spec w app node s Hrpc).
  destruct (bind (query_application w (runs s) app node) (shown_row (gateway s) app))
    as [r|e0] eqn:Hrow.
  - split; [intros e He; discriminate|].
    intros _. exists r. split; [|reflexivity].
    destruct (query_application w (runs s) app node) as [data|e1]; [|discriminate].
    apply (shown_row_address _ _ _ _ Hrow).
  - split; [intros e _; reflexivity|].
    intros Hno. exfalso. apply (Hno e0). reflexivity.
Qed.

Lemma same_outside_table_refl (s : state) : same_outside_table s s.
Proof. unfold same_outside_table. repeat split. Qed.

Lemma same_outside_table_trans (s1 s2 s3 : state) :
  same_outside_table s1 s2 -> same_outside_table s2 s3 -> same_outside_table s1 s3.
Proof. unfold same_outside_table. intuition congruence. Qed.

(** One turn of the loop: a row for the address and one more invocation,
    or an exception with the table as it was. *)
Lemma refresh_row_step (app : pyval) (s : state) :
  (exists r, refresh_row w app s = (Ok tt, after_query r s) /\ address r = app)
  \/ (exists e s1,
         refresh_row w app s = (Err e, s1)
         /\ table s1 = table s /\ same_outside_table s s1
         /\ (runs s <= runs s1 <= S (runs s))%nat).
Proof.
  destruct (rpc s) as [node|] eqn:Hrpc.
  - rewrite (refresh_row_spec w app node s Hrpc).
    destruct (query_application w (runs s) app node) as [data|e]; cbn [bind].
    + destruct (shown_row (gateway s) app data) as [r|e] eqn:Hr.
      * left. exists r. split; [reflexivity|]. apply (shown_row_address _ _ _ _ Hr).
      * right. exists e, (set_runs (S (runs s)) s). cbn.
        repeat split; lia.
    + right. exists e, (set_runs (S (runs s)) s). cbn. repeat split; lia.
  - right. unfold refresh_row. cbv beta iota delta [bindM attribute].
    rewrite Hrpc. eexists. exists s. repeat split; lia.
Qed.

Lemma for_each_prefix (apps : list pyval) :
  forall s : state,
    let r := for_each (refresh_row w) apps s in
    exists k : nat,
      (k <= List.length apps)%nat
      /\ map address (table (snd r)) = (map address (table s) ++ firstn k apps)%list
      /\ (fst r = Ok tt -> k = List.length apps)
      /\ (runs s + k <= runs (snd r) <= runs s + List.length apps)%nat
      /\ same_outside_table s (snd r).
Proof.
  induction apps as [|app rest IH]; intros s; cbv zeta.
  - exists 0%nat. cbn. rewrite app_nil_r.
    repeat split; try lia.
  - cbn [for_each]. unfold bindM.
    destruct (refresh_row_step app s) as [(r & Hstep & Haddr) | (e & s1 & Hstep & Ht & Hsame & Hruns)];
      rewrite Hstep.
    + destruct (IH (after_query r s)) as (k & Hk & Hmap & Hok & Hr & Hsame).
      cbv zeta in *. exists (S k). cbn [List.length firstn].
      split; [lia|]. split.
      { rewrite Hmap. unfold after_query. cbn [table set_table].
        rewrite map_app. cbn [map]. rewrite Haddr, <- app_assoc. reflexivity. }
      split; [intros H; rewrite (Hok H); reflexivity|].
      split.
      { unfold after_query in *. cbn [runs set_table set_runs] in Hr. lia. }
      apply (same_outside_table_trans s (after_query r s)); [|exact Hsame].
      unfold same_outside_table, after_query. cbn. repeat split.
    + exists 0%nat. cbn [fst snd firstn List.length]. rewrite app_nil_r, Ht.
      repeat split; try lia; try discriminate; apply Hsame.
Qed.

(** Whatever the queries do, the rows of the table after a refresh are
    rows of the configured addresses, in the configured order and without
    gaps: a prefix of the list, the whole list when the refresh returns.
    The client is run once per row, at most once more, never more often
    than there are addresses. *)
Theorem refresh_rows_prefix (cfg applications : pyval) (apps : list pyval) (s : state) :
  config s = Some cfg ->
  getitem_key cfg "applications" = Ok applications ->
  iter applications = Ok apps ->
  exists k : nat,
    (k <= List.length apps)%nat
    /\ map address (table (snd (refresh_table w s))) = firstn k apps
    /\ (fst (refresh_table w s) = Ok tt -> k = List.length apps)
    /\ (runs s + k <= runs (snd (refresh_table w s)) <= runs s + List.length apps)%nat.
Proof.
  intros Hcfg Happs Hiter.
  rewrite (refresh_table_spec w cfg applications apps s Hcfg Happs Hiter).
  destruct (for_each_prefix apps (set_table [] s)) as (k & Hk & Hmap & Hok & Hr & _).
  cbv zeta in *. exists k. repeat split; try assumption; apply Hr.
Qed.

Lemma refresh_table_frame (s : state) :
  same_outside_table s (snd (refresh_table w s))
  /\ (runs s <= runs (snd (refresh_table w s)))%nat.
Proof.
  unfold refresh_table.
  cbv beta iota delta [bindM table_clear modify attribute lift].
  change (config (set_table [] s)) with (config s).
  assert (Hclear : same_outside_table s (set_table [] s)
                   /\ (runs s <= runs (set_table [] s))%nat)
    by (unfold same_outside_table; cbn; repeat split; lia).
  destruct (config s) as [cfg|]; [|exact Hclear].
  destruct (getitem_key cfg "applications") as [applications|]; [|exact Hclear].
  destruct (iter applications) as [apps|]; [|exact Hclear].
  destruct (for_each_prefix apps (set_table [] s)) as (k & _ & _ & _ & Hr & Hsame).
  cbv zeta in *. split.
  - apply (same_outside_table_trans s (set_table [] s)); [apply Hclear | exact Hsame].
  - cbn [runs set_table] in Hr. lia.
Qed.

(** A refresh, returning or raising, changes nothing but the table and the
    count of invocations: the configuration, the endpoint, the gateway, the
    splash, the command input and the exit flag are as before. *)
Theorem refresh_changes_table_only (s : state) :
  same_outside_table s (snd (refresh_table w s)).
Proof. apply refresh_table_frame. Qed.

End Outcomes.

(** ** Start-up and the calls after it *)

Section Lifetime.

#[local] Open Scope method_scope.

Variable w : world.

(** When [on_mount] raises (the configuration cannot be loaded, or lacks
    the endpoint or a first gateway), start-up ends with that exception:
    nothing deferred runs, the client is not invoked, the table and the
    splash are untouched. *)
Theorem failed_mount_defers_nothing (s : state) (e : exn) :
  fst (on_mount w s) = Err e ->
  boot w s = on_mount w s
  /\ table (snd (boot w s)) = table s
  /\ runs (snd (boot w s)) = runs s
  /\ splash (snd (boot w s)) = splash s
  /\ finish_boot_pending (snd (boot w s)) = finish_boot_pending s
  /\ exited (snd (boot w s)) = exited s.
Proof.
  intros Hraise.
  assert (Hboot : boot w s = on_mount w s).
  { unfold boot, bindM. destruct (on_mount w s) as [[[]|e'] s1]; [discriminate|reflexivity]. }
  rewrite Hboot. split; [reflexivity|].
  rewrite on_mount_spec in *.
  destruct (load_config w "config.yaml") as [cfg|e0]; [|cbn; auto].
  destruct (getitem_key cfg "rpc_endpoint") as [node|e1]; [|cbn; auto].
  destruct (bind (getitem_key cfg "gateways") (fun g => getitem_index g 0)) as [first|e2];
    [discriminate|cbn; auto 6].
Qed.

(** When start-up returns, the splash is gone, the three attributes hold
    what the configuration file gives, and the table has one row for each
    configured address, in order, after one invocation for each. *)
Theorem boot_completes (s s' : state) :
  boot w s = (Ok tt, s') ->
  mounted w s'
  /\ splash s' = false /\ finish_boot_pending s' = false
  /\ cmd_display s' = cmd_display s /\ exited s' = exited s
  /\ exists cfg applications apps,
       config s' = Some cfg
       /\ getitem_key cfg "applications" = Ok applications
       /\ iter applications = Ok apps
       /\ map address (table s') = apps
       /\ runs s' = (runs s + List.length apps)%nat.
Proof.
  unfold boot, bindM.
  destruct (on_mount w s) as [[[]|e] s1] eqn:Hmount; [|discriminate].
  destruct (on_mount_mounted w s s1 Hmount) as [Hmounted Hpending].
  assert (Hs1 : table s1 = table s /\ runs s1 = runs s
                /\ cmd_display s1 = cmd_display s /\ exited s1 = exited s).
  { rewrite on_mount_spec in Hmount.
    destruct (load_config w "config.yaml") as [cfg|e0]; [|discriminate].
    destruct (getitem_key cfg "rpc_endpoint") as [node|e1]; [|discriminate].
    destruct (bind (getitem_key cfg "gateways") (fun g => getitem_index g 0))
      as [first|e2]; [|discriminate].
    injection Hmount as <-. cbn. repeat split. }
  destruct Hs1 as (Htable & Hruns & Hdisplay & Hexited).
  unfold run_pending. rewrite Hpending.
  unfold finish_boot. cbv beta iota delta [bindM modify].
  set (s2 := set_splash false (set_finish_boot_pending false s1)).
  intros Hrefresh.
  assert (Hmounted2 : mounted w s2).
  { destruct Hmounted as (cfg & node & g & first & H1 & H2 & H3 & H4 & H5 & H6 & H7).
    exists cfg, node, g, first. cbn. repeat split; assumption. }
  pose proof (refresh_table_mounted w s2 Hmounted2) as Hmounted'.
  destruct (refresh_table_frame w s2) as [Hframe _].
  rewrite Hrefresh in Hmounted', Hframe. cbn [snd] in Hmounted', Hframe.
  destruct Hframe as (Hc & _ & _ & Hsp & Hcd & _ & _ & Hfb & Hex).
  split; [exact Hmounted'|].
  split; [rewrite Hsp; reflexivity|].
  split; [rewrite Hfb; reflexivity|].
  split; [rewrite Hcd; exact Hdisplay|].
  split; [rewrite Hex; exact Hexited|].
  destruct Hmounted2 as (cfg & node & g & first & _ & Hcfg & _ & _ & _ & _ & _).
  assert (Happs : exists applications apps,
             getitem_key cfg "applications" = Ok applications
             /\ iter applications = Ok apps).
  { revert Hrefresh. unfold refresh_table.
    cbv beta iota delta [bindM table_clear modify attribute lift].
    change (config (set_table [] s2)) with (config s2). rewrite Hcfg.
    destruct (getitem_key cfg "applications") as [applications|] eqn:Ha; [|discriminate].
    destruct (iter applications) as [apps|] eqn:Hi; [|discriminate].
    intros _. exists applications, apps. split; [reflexivity | exact Hi]. }
  destruct Happs as (applications & apps & Happs & Hiter).
  exists cfg, applications, apps.
  split; [rewrite Hc; exact Hcfg|]. split; [exact Happs|]. split; [exact Hiter|].
  rewrite (refresh_table_spec w cfg applications apps s2 Hcfg Happs Hiter) in Hrefresh.
  destruct (for_each_prefix w apps (set_table [] s2)) as (k & Hk & Hmap & Hok & Hr & _).
  cbv zeta in *. rewrite Hrefresh in Hmap, Hok, Hr. cbn [fst snd] in Hmap, Hok, Hr.
  rewrite (Hok eq_refl) in Hmap, Hr. rewrite firstn_all in Hmap.
  split; [exact Hmap|].
  cbn [runs set_table set_splash set_finish_boot_pending s2] in Hr.
  unfold s2 in Hr. cbn in Hr. lia.
Qed.

(** A submitted text that is not the quit command does exactly what a loss
    of focus does: the input is hidden, a repaint is asked for, and the
    application does not exit. *)
Theorem non_quit_submit_is_blur (value : string) (s : state) :
  strip value <> "q" ->
  on_input_submitted value s = on_input_blurred s
  /\ exited (snd (on_input_blurred s)) = exited s
  /\ cmd_display (snd (on_input_blurred s)) = false
  /\ table (snd (on_input_blurred s)) = table s
  /\ runs (snd (on_input_blurred s)) = runs s.
Proof.
  intros Hne. unfold on_input_submitted, on_input_blurred.
  cbv beta iota zeta delta [bindM modify widget_refresh ret].
  destruct (String.eqb_spec (strip value) "q") as [Heq|_]; [contradiction|].
  cbn. repeat split.
Qed.

Lemma handle_step (c : call) (s : state) :
  let s1 := snd (handle w c s) in
  config s1 = config s /\ rpc s1 = rpc s /\ gateway s1 = gateway s
  /\ splash s1 = splash s /\ finish_boot_pending s1 = finish_boot_pending s
  /\ exited s1 = (is_quit c || exited s)%bool
  /\ (runs s <= runs s1)%nat
  /\ (is_refresh c = false -> table s1 = table s /\ runs s1 = runs s).
Proof.
  destruct c as [| |value|]; cbv zeta.
  - cbn [handle is_quit is_refresh orb]. unfold action_refresh.
    destruct (refresh_table_frame w s) as [(H1 & H2 & H3 & H4 & _ & _ & _ & H8 & H9) Hr].
    repeat split; try assumption. all: discriminate.
  - cbn. repeat split; lia.
  - unfold handle, on_input_submitted, is_quit.
    cbv beta iota zeta delta [bindM modify widget_refresh ret].
    destruct (String.eqb (strip value) "q"); cbn; repeat split; lia.
  - cbn. repeat split; lia.
Qed.

(** Over any run of calls after start-up: the configuration, the endpoint
    and the gateway never change and the splash never comes back; the
    application exits only through a submitted text that strips to ["q"],
    and the exit flag is never taken back; only a refresh touches the table
    or runs the client. *)
Theorem session_invariants (calls : list call) :
  forall s : state,
    let s' := snd (session w calls s) in
    config s' = config s /\ rpc s' = rpc s /\ gateway s' = gateway s
    /\ splash s' = splash s /\ finish_boot_pending s' = finish_boot_pending s
    /\ (runs s <= runs s')%nat
    /\ (exited s = true -> exited s' = true)
    /\ (existsb is_quit calls = false -> exited s' = exited s)
    /\ (existsb is_refresh calls = false -> table s' = table s /\ runs s' = runs s).
Proof.
  unfold session.
  induction calls as [|c rest IH]; intros s; cbv zeta.
  - cbn. repeat split; auto.
  - cbn [for_each existsb]. unfold bindM.
    pose proof (handle_step c s) as Hstep. cbv zeta in Hstep.
    destruct (handle w c s) as [[[]|e] s1]; cbn [snd] in *.
    + specialize (IH s1). cbv zeta in IH.
      destruct Hstep as (H1 & H2 & H3 & H4 & H5 & H6 & H7 & H8).
      destruct IH as (I1 & I2 & I3 & I4 & I5 & I6 & I7 & I8 & I9).
      repeat split; try congruence; try lia.
      * intros Hex. apply I7. rewrite H6, Hex. apply orb_true_r.
      * intros Hq. apply orb_false_iff in Hq as [Hq1 Hq2].
        rewrite (I8 Hq2), H6, Hq1. reflexivity.
      * match goal with Hq : (_ || _)%bool = false |- _ =>
          apply orb_false_iff in Hq as [Hq1 Hq2] end.
        destruct (H8 Hq1) as [Ht _]. destruct (I9 Hq2) as [It _]. congruence.
      * match goal with Hq : (_ || _)%bool = false |- _ =>
          apply orb_false_iff in Hq as [Hq1 Hq2] end.
        destruct (H8 Hq1) as [_ Hr]. destruct (I9 Hq2) as [_ Ir]. congruence.
    + destruct Hstep as (H1 & H2 & H3 & H4 & H5 & H6 & H7 & H8).
      repeat split; try assumption.
      * intros Hex. rewrite H6, Hex. apply orb_true_r.
      * intros Hq. apply orb_false_iff in Hq as [Hq1 _]. rewrite H6, Hq1. reflexivity.
      * match goal with Hq : (_ || _)%bool = false |- _ =>
          apply orb_false_iff in Hq as [Hq1 _] end. apply (H8 Hq1).
      * match goal with Hq : (_ || _)%bool = false |- _ =>
          apply orb_false_iff in Hq as [Hq1 _] end. apply (H8 Hq1).
Qed.

End Lifetime.

(** ** The logo line *)

Section Logo.

Variable w : world.

Lemma splitlines_onto_first (s : string) :
  forall line : string,
    (line = EmptyString /\ s = EmptyString /\ splitlines_onto line s = [])
    \/ (exists first rest others,
           splitlines_onto line s = (string_rev line ++ first) :: others
           /\ s = first ++ rest
           /\ has_line_boundary first = false
           /\ (rest = EmptyString
               \/ exists c r, rest = String c r /\ is_line_boundary c = true)).
Proof.
  induction s as [|c s' IH]; intros line.
  - destruct line as [|c0 line0].
    + left. auto.
    + right. exists EmptyString, EmptyString, []. cbn [splitlines_onto].
      rewrite string_app_nil_r. auto.
  - right. cbn [splitlines_onto].
    destruct (is_line_boundary c) eqn:Hc.
    + exists EmptyString, (String c s'). eexists.
      rewrite string_app_nil_r. split; [reflexivity|]. split; [reflexivity|].
      split; [reflexivity|]. right. exists c, s'. auto.
    + destruct (IH (String c line)) as [(Hline & _) | (first & rest & others & H1 & H2 & H3 & H4)];
        [discriminate|].
      exists (String c first), rest, others.
      rewrite H1, string_rev_cons, string_app_assoc. cbn [append str1].
      split; [reflexivity|]. split; [rewrite H2; reflexivity|].
      split; [cbn [has_line_boundary]; rewrite Hc, H3; reflexivity | exact H4].
Qed.

(** [LOGO_LINE], computed when the module is imported: an empty logo file
    raises [IndexError]; otherwise it is the text of the file up to its
    first line boundary (the whole text when there is none), possibly
    empty. *)
Theorem logo_line_spec (text : string) :
  read_file w "art/logo.txt" = Ok text ->
  (text = EmptyString ->
   LOGO_LINE w = Err (Raise IndexError "list index out of range"))
  /\ (text <> EmptyString ->
      exists first rest,
        LOGO_LINE w = Ok first
        /\ text = first ++ rest
        /\ has_line_boundary first = false
        /\ (rest = EmptyString
            \/ exists c r, rest = String c r /\ is_line_boundary c = true)).
Proof.
  intros Hread. unfold LOGO_LINE, load_ascii_art.
  change ("art/" ++ "logo.txt") with "art/logo.txt". rewrite Hread. cbn [bind].
  split.
  - intros ->. reflexivity.
  - intros Hne. unfold splitlines.
    destruct (splitlines_onto_first text EmptyString)
      as [(_ & Hempty & _) | (first & rest & others & H1 & H2 & H3 & H4)];
      [contradiction|].
    exists first, rest. rewrite H1. cbn. auto.
Qed.

End Logo.

(** ** Cells of a record *)

Section Cells.

#[local] Open Scope method_scope.

Variable w : world.

(** The service cell is ["-"] for every [service_configs] that counts as
    false (the empty list, but also [null], an empty mapping, zero, [false]
    and the empty text); for a non-empty list it is the [service_id] of the
    first entry alone, whatever follows it; for any other value the mapping
    raises. *)
Theorem service_cell_cases (kvs : list (string * pyval)) (v : pyval) :
  assoc "service_configs" kvs = Some v ->
  (truthy v = false -> service_id_of (VDict kvs) = Ok (VStr "-"))
  /\ (forall first rest,
         v = VList (first :: rest) ->
         service_id_of (VDict kvs) = getitem_key first "service_id")
  /\ (truthy v = true -> (forall l, v <> VList l) ->
      exists e, service_id_of (VDict kvs) = Err e).
Proof.
  intros Hv. unfold service_id_of. cbn [getitem_key]. rewrite Hv. cbn [bind].
  split; [|split].
  - intros ->. reflexivity.
  - intros first rest ->. reflexivity.
  - intros Ht Hnl. rewrite Ht.
    destruct v as [| b | z | f | t | l | d]; cbn in Ht |- *;
      try (eexists; reflexivity); try discriminate.
    + destruct t as [|c t]; [discriminate|]. cbn. eexists; reflexivity.
    + exfalso. apply (Hnl l). reflexivity.
Qed.

(** A record without [stake], or whose [stake] is a mapping without
    [amount], gets the row [address, "ParseErr: '<key>'", "-", "-"] naming
    the missing key, whatever its [service_configs] is. *)
Theorem missing_key_row (app node : pyval) (kvs : list (string * pyval))
        (key : string) (s : state) :
  rpc s = Some node ->
  query_application w (runs s) app node = Ok (VDict kvs) ->
  has_key "error" kvs = false ->
  (assoc "stake" kvs = None /\ key = "stake")
  \/ (exists stake_kvs,
         assoc "stake" kvs = Some (VDict stake_kvs)
         /\ assoc "amount" stake_kvs = None /\ key = "amount") ->
  refresh_row w app s =
  (Ok tt,
   set_table
     (table s ++ [mkRow app (VStr ("ParseErr: " ++ repr_str key)) (VStr "-") (VStr "-")])
     (set_runs (S (runs s)) s)).
Proof.
  intros Hrpc Hq Herr Hmiss.
  rewrite (refresh_row_spec w app node s Hrpc), Hq. cbn [bind].
  unfold shown_row. cbn [contains]. rewrite Herr. cbn [bind].
  unfold record_row, stake_amt_of. cbn [getitem_key].
  destruct Hmiss as [[Hs ->] | (stake_kvs & Hs & Ha & ->)]; rewrite Hs; cbn [bind getitem_key].
  - reflexivity.
  - rewrite Ha. reflexivity.
Qed.

(** For an amount [n] below [2^34 * 10^6] in magnitude that is not exactly
    half way between two hundredths, the stake text is the sign of [n] and
    [(|n| + 5000) / 10000] hundredths; the amount may be given as text, as
    a number or as a boolean. *)
Theorem stake_text_formula (kvs stake_kvs : list (string * pyval)) (amount : pyval)
        (n : Z) :
  assoc "stake" kvs = Some (VDict stake_kvs) ->
  assoc "amount" stake_kvs = Some amount ->
  int amount = Ok n ->
  Z.abs n < 2 ^ 34 * 10 ^ 6 ->
  Z.abs n mod 10000 <> 5000 ->
  exists x,
    stake_amt_of (VDict kvs) = Ok x
    /\ format_2f x = decimal2 (n <? 0) ((Z.abs n + 5000) / 10000).
Proof.
  intros Hs Ha Hint Hn Htie.
  destruct (stake_text_nearest n Hn) as (y & h & Hy & Hfmt & Hh0 & Hh).
  exists y. unfold stake_amt_of. cbn [getitem_key]. rewrite Hs. cbn [bind getitem_key].
  rewrite Ha. cbn [bind]. rewrite Hint. cbn [bind]. split; [exact Hy|].
  rewrite Hfmt. f_equal.
  pose proof (Z.div_mod (Z.abs n) 10000 ltac:(lia)) as Hdm.
  pose proof (Z.mod_pos_bound (Z.abs n) 10000 ltac:(lia)) as Hr.
  apply (Z.div_unique _ _ _ (Z.abs n + 5000 - 10000 * h)); lia.
Qed.

Lemma ilog2_ratio_lower (p q B : Z) :
  0 < p -> 0 < q -> 0 <= B -> q * 2 ^ B <= p ->
  B <= ilog2_ratio p q /\ q * 2 ^ ilog2_ratio p q <= p.
Proof.
  intros Hp Hq HB Hle. unfold ilog2_ratio.
  set (l := Z.log2 p - Z.log2 q).
  pose proof (Z.log2_spec p Hp) as [Hp1 Hp2].
  pose proof (Z.log2_spec q Hq) as [Hq1 Hq2].
  pose proof (Z.log2_nonneg q) as Hq0. pose proof (Z.log2_nonneg p) as Hp0.
  assert (H2B : 0 < 2 ^ B) by (apply Z.pow_pos_nonneg; lia).
  assert (Hl : B <= l).
  { assert (Hlt : 2 ^ (Z.log2 q + B) < 2 ^ Z.succ (Z.log2 p)).
    { rewrite Z.pow_add_r by lia. nia. }
    apply Z.pow_lt_mono_r_iff in Hlt; lia. }
  unfold pow2_pos, pow2_neg.
  rewrite (Z.max_r 0 l) by lia. rewrite (Z.max_l 0 (- l)) by lia.
  change (2 ^ 0) with 1. rewrite Z.mul_1_r.
  destruct (Z.leb_spec (q * 2 ^ l) p) as [Ht | Ht].
  - split; [exact Hl | exact Ht].
  - assert (Hne : l <> B) by (intros ->; lia).
    split; [lia|].
    assert (Hpow : 2 ^ Z.log2 p = 2 ^ Z.succ (Z.log2 q) * 2 ^ (l - 1)).
    { rewrite <- Z.pow_add_r by lia. f_equal. lia. }
    assert (0 < 2 ^ (l - 1)) by (apply Z.pow_pos_nonneg; lia).
    nia.
Qed.

(** A ratio of [2^1024] or more is beyond every finite float. *)
Lemma nearest_overflow (neg : bool) (p q : Z) :
  0 < q -> q * 2 ^ 1024 <= p -> nearest neg p q = None.
Proof.
  intros Hq Hle.
  assert (H1024 : 0 < 2 ^ 1024) by (apply Z.pow_pos_nonneg; lia).
  assert (Hp : 0 < p) by nia.
  destruct (ilog2_ratio_lower p q 1024 Hp Hq ltac:(lia) Hle) as [HL Hfloor].
  unfold nearest.
  destruct (Z.eqb_spec p 0) as [|_]; [lia|].
  set (L := ilog2_ratio p q) in *.
  rewrite (Z.max_l (L - 52) (-1074)) by lia.
  unfold pow2_pos, pow2_neg.
  rewrite (Z.max_r 0 (L - 52)) by lia. rewrite (Z.max_l 0 (- (L - 52))) by lia.
  change (2 ^ 0) with 1. rewrite Z.mul_1_r.
  assert (Hpow : 2 ^ L = 2 ^ (L - 52) * 2 ^ 52).
  { rewrite <- Z.pow_add_r by lia. f_equal. lia. }
  assert (He : 0 < 2 ^ (L - 52)) by (apply Z.pow_pos_nonneg; lia).
  assert (H52 : 0 < 2 ^ 52) by reflexivity.
  set (m := round_half_even p (q * 2 ^ (L - 52))).
  assert (Hm : 0 < m) by (apply round_half_even_pos; nia).
  destruct (Z.eqb_spec m (2 ^ 53)) as [_|_].
  - assert (Hz : (2 ^ 52 =? 0) = false) by reflexivity. rewrite Hz.
    destruct (Z.ltb_spec 971 (L - 52 + 1)) as [_|]; [reflexivity | lia].
  - destruct (Z.eqb_spec m 0) as [|_]; [lia|].
    destruct (Z.ltb_spec 971 (L - 52)) as [_|]; [reflexivity | lia].
Qed.

(** An amount of [2^1024 * 10^6] or more does not fit a float: the division
    raises [OverflowError], and the row is a parse-error row, not a
    crash. *)
Theorem stake_overflow_row (app node : pyval) (kvs stake_kvs : list (string * pyval))
        (amount : pyval) (n : Z) (s : state) :
  rpc s = Some node ->
  query_application w (runs s) app node = Ok (VDict kvs) ->
  has_key "error" kvs = false ->
  assoc "stake" kvs = Some (VDict stake_kvs) ->
  assoc "amount" stake_kvs = Some amount ->
  int amount = Ok n ->
  2 ^ 1024 * 10 ^ 6 <= Z.abs n ->
  refresh_row w app s =
  (Ok tt,
   set_table
     (table s
      ++ [mkRow app (VStr "ParseErr: integer division result too large for a float")
                (VStr "-") (VStr "-")])
     (set_runs (S (runs s)) s)).
Proof.
  intros Hrpc Hq Herr Hs Ha Hint Hn.
  rewrite (refresh_row_spec w app node s Hrpc), Hq. cbn [bind].
  unfold shown_row. cbn [contains]. rewrite Herr. cbn [bind].
  unfold record_row, stake_amt_of. cbn [getitem_key]. rewrite Hs. cbn [bind getitem_key].
  rewrite Ha. cbn [bind]. rewrite Hint. cbn [bind].
  unfold truediv. change (1000000 =? 0) with false. cbv iota.
  change (Z.abs 1000000) with 1000000.
  rewrite (nearest_overflow _ (Z.abs n) 1000000 ltac:(lia)).
  - reflexivity.
  - change (10 ^ 6) with 1000000 in Hn. lia.
Qed.

End Cells.

(** ** Refreshing again *)

Section Again.

#[local] Open Scope method_scope.

Variable w : world.

Hypothesis steady : stationary w.

Lemma stationary_query (n m : nat) (app node : pyval) :
  query_application w n app node = query_application w m app node.
Proof. unfold query_application. rewrite (steady n m). reflexivity. Qed.

Lemma for_each_stationary (apps : list pyval) :
  forall s1 s2 : state,
    rpc s1 = rpc s2 -> gateway s1 = gateway s2 ->
    exists rows,
      fst (for_each (refresh_row w) apps s1) = fst (for_each (refresh_row w) apps s2)
      /\ table (snd (for_each (refresh_row w) apps s1)) = (table s1 ++ rows)%list
      /\ table (snd (for_each (refresh_row w) apps s2)) = (table s2 ++ rows)%list.
Proof.
  induction apps as [|app rest IH]; intros s1 s2 Hrpc Hgw.
  - exists []. cbn. rewrite !app_nil_r. auto.
  - cbn [for_each]. unfold bindM.
    destruct (rpc s1) as [node|] eqn:Hrpc1.
    + rewrite (refresh_row_spec w app node s1 Hrpc1).
      rewrite (refresh_row_spec w app node s2 (eq_sym Hrpc)).
      rewrite <- Hgw, (stationary_query (runs s2) (runs s1)).
      destruct (bind (query_application w (runs s1) app node) (shown_row (gateway s1) app))
        as [r|e].
      * destruct (IH (after_query r s1) (after_query r s2)) as (rows & Hf & H1 & H2).
        { cbn. rewrite Hrpc1. exact Hrpc. }
        { exact Hgw. }
        exists (r :: rows). rewrite Hf, H1, H2.
        unfold after_query. cbn [table set_table]. rewrite <- !app_assoc. auto.
      * exists []. cbn. rewrite !app_nil_r. auto.
    + exists []. unfold refresh_row. cbv beta iota delta [bindM attribute].
      rewrite <- Hrpc, Hrpc1. cbn. rewrite !app_nil_r. auto.
Qed.

Lemma refresh_table_unfold (s : state) :
  refresh_table w s =
  match config s with
  | None =>
      (Err (Raise AttributeError
              ("'GASMSApp' object has no attribute " ++ repr_str "config")),
       set_table [] s)
  | Some cfg =>
      match bind (getitem_key cfg "applications") iter with
      | Err e => (Err e, set_table [] s)
      | Ok apps => for_each (refresh_row w) apps (set_table [] s)
      end
  end.
Proof.
  unfold refresh_table.
  cbv beta iota delta [bindM table_clear modify attribute lift].
  change (config (set_table [] s)) with (config s).
  destruct (config s) as [cfg|]; [|reflexivity].
  destruct (getitem_key cfg "applications") as [applications|]; [|reflexivity].
  cbn [bind]. destruct (iter applications); reflexivity.
Qed.

Lemma refresh_table_stationary (s1 s2 : state) :
  config s1 = config s2 -> rpc s1 = rpc s2 -> gateway s1 = gateway s2 ->
  fst (refresh_table w s1) = fst (refresh_table w s2)
  /\ table (snd (refresh_table w s1)) = table (snd (refresh_table w s2)).
Proof.
  intros Hc Hr Hg. rewrite !refresh_table_unfold, Hc.
  destruct (config s2) as [cfg|]; [|split; reflexivity].
  destruct (bind (getitem_key cfg "applications") iter) as [apps|e];
    [|split; reflexivity].
  destruct (for_each_stationary apps (set_table [] s1) (set_table [] s2) Hr Hg)
    as (rows & Hf & H1 & H2).
  rewrite H1, H2. split; [exact Hf | reflexivity].
Qed.

(** When the client answers a command line the same way each time, a
    second refresh right after the first gives the same result and the same
    table: refreshing is idempotent. *)
Theorem refresh_again_same_table (s : state) :
  fst (refresh_table w (snd (refresh_table w s))) = fst (refresh_table w s)
  /\ table (snd (refresh_table w (snd (refresh_table w s))))
     = table (snd (refresh_table w s)).
Proof.
  destruct (refresh_table_frame w s) as [(Hc & Hr & Hg & _) _].
  apply refresh_table_stationary; assumption.
Qed.

End Again.

(** ** The further properties at work *)

Section MoreRuns.

Import Demo DemoArt.

Lemma refresh_row_raises_iff_witness :
  ((exists e, fst (refresh_row the_world (VStr "pokt1null") (mounted_state the_world))
              = Err e) <->
   (exists e,
       subprocess_run the_world (runs (mounted_state the_world))
         (command (VStr "pokt1null") (VStr "https://rpc.example:443")) = RunRaised e)
   \/ (exists stdout doc data,
          subprocess_run the_world (runs (mounted_state the_world))
            (command (VStr "pokt1null") (VStr "https://rpc.example:443"))
          = Completed stdout
          /\ json_loads the_world stdout = Ok doc
          /\ getitem_key doc "application" = Ok data
          /\ is_scalar data = true))
  /\ (forall e,
         fst (refresh_row the_world (VStr "pokt1null") (mounted_state the_world))
         = Err e ->
         table (snd (refresh_row the_world (VStr "pokt1null")
                       (mounted_state the_world)))
         = table (mounted_state the_world))
  /\ ((forall e,
          fst (refresh_row the_world (VStr "pokt1null") (mounted_state the_world))
          <> Err e) ->
      exists r,
        address r = VStr "pokt1null"
        /\ refresh_row the_world (VStr "pokt1null") (mounted_state the_world) =
           (Ok tt,
            set_table (table (mounted_state the_world) ++ [r])
                      (set_runs (S (runs (mounted_state the_world)))
                                (mounted_state the_world)))).
Proof.
  apply (refresh_row_raises_iff the_world (VStr "pokt1null")
           (VStr "https://rpc.example:443") (mounted_state the_world)).
  reflexivity.
Defined.

(** The same turn for an address the client answers with a record: it
    returns, and the row is the last of the table. *)
Example refresh_row_adds_row :
  refresh_row the_world (VStr "pokt1good") (mounted_state the_world)
  = (Ok tt,
     set_table [mkRow (VStr "pokt1good") (VStr "2.50") (VStr "anvil")
                      (VStr "pokt1gateway")]
               (set_runs 1 (mounted_state the_world))).
Proof. vm_compute. reflexivity. Qed.

Lemma refresh_rows_prefix_witness :
  exists k : nat,
    (k <= List.length applications)%nat
    /\ map address
         (table (snd (refresh_table world_without_client
                        (mounted_state world_without_client))))
       = firstn k applications
    /\ (fst (refresh_table world_without_client (mounted_state world_without_client))
        = Ok tt -> k = List.length applications)
    /\ (runs (mounted_state world_without_client) + k
        <= runs (snd (refresh_table world_without_client
                        (mounted_state world_without_client)))
        <= runs (mounted_state world_without_client) + List.length applications)%nat.
Proof.
  apply (refresh_rows_prefix world_without_client configuration (VList applications)
           applications (mounted_state world_without_client));
    vm_compute; reflexivity.
Defined.

Lemma failed_mount_defers_nothing_witness :
  boot world_unwrapped initial = on_mount world_unwrapped initial
  /\ table (snd (boot world_unwrapped initial)) = table initial
  /\ runs (snd (boot world_unwrapped initial)) = runs initial
  /\ splash (snd (boot world_unwrapped initial)) = splash initial
  /\ finish_boot_pending (snd (boot world_unwrapped initial))
     = finish_boot_pending initial
  /\ exited (snd (boot world_unwrapped initial)) = exited initial.
Proof.
  apply (failed_mount_defers_nothing world_unwrapped initial
           (Raise KeyError (repr_str "config"))).
  vm_compute. reflexivity.
Defined.

Lemma boot_completes_witness :
  let s' := snd (boot the_world initial) in
  mounted the_world s'
  /\ splash s' = false /\ finish_boot_pending s' = false
  /\ cmd_display s' = cmd_display initial /\ exited s' = exited initial
  /\ exists cfg applications apps,
       config s' = Some cfg
       /\ getitem_key cfg "applications" = Ok applications
       /\ iter applications = Ok apps
       /\ map address (table s') = apps
       /\ runs s' = (runs initial + List.length apps)%nat.
Proof.
  apply (boot_completes the_world initial (snd (boot the_world initial))).
  vm_compute. reflexivity.
Defined.

Lemma non_quit_submit_is_blur_witness :
  on_input_submitted " refresh " initial = on_input_blurred initial
  /\ exited (snd (on_input_blurred initial)) = exited initial
  /\ cmd_display (snd (on_input_blurred initial)) = false
  /\ table (snd (on_input_blurred initial)) = table initial
  /\ runs (snd (on_input_blurred initial)) = runs initial.
Proof.
  apply (non_quit_submit_is_blur " refresh " initial).
  vm_compute. discriminate.
Defined.

Lemma logo_line_spec_witness :
  (logo_text = EmptyString ->
   LOGO_LINE world_with_art = Err (Raise IndexError "list index out of range"))
  /\ (logo_text <> EmptyString ->
      exists first rest,
        LOGO_LINE world_with_art = Ok first
        /\ logo_text = first ++ rest
        /\ has_line_boundary first = false
        /\ (rest = EmptyString
            \/ exists c r, rest = String c r /\ is_line_boundary c = true)).
Proof.
  apply (logo_line_spec world_with_art logo_text). reflexivity.
Defined.

Lemma service_cell_cases_witness :
  (truthy VNone = false ->
   service_id_of (VDict [("service_configs", VNone)]) = Ok (VStr "-"))
  /\ (forall first rest,
         VNone = VList (first :: rest) ->
         service_id_of (VDict [("service_configs", VNone)])
         = getitem_key first "service_id")
  /\ (truthy VNone = true -> (forall l, VNone <> VList l) ->
      exists e, service_id_of (VDict [("service_configs", VNone)]) = Err e).
Proof.
  apply (service_cell_cases [("service_configs", VNone)] VNone). reflexivity.
Defined.

Lemma missing_key_row_witness :
  let w := replying (VDict [("address", VStr "pokt1app")]) in
  refresh_row w (VStr "pokt1good") (mounted_state w) =
  (Ok tt,
   set_table
     (table (mounted_state w)
      ++ [mkRow (VStr "pokt1good") (VStr ("ParseErr: " ++ repr_str "stake"))
                (VStr "-") (VStr "-")])
     (set_runs (S (runs (mounted_state w))) (mounted_state w))).
Proof.
  cbv zeta.
  apply (missing_key_row (replying (VDict [("address", VStr "pokt1app")]))
           (VStr "pokt1good") (VStr "https://rpc.example:443")
           [("address", VStr "pokt1app")] "stake").
  - reflexivity.
  - reflexivity.
  - reflexivity.
  - left. split; reflexivity.
Defined.

Lemma stake_text_formula_witness :
  exists x,
    stake_amt_of (record (VInt 1234567) ["anvil"]) = Ok x
    /\ format_2f x = decimal2 (1234567 <? 0) ((Z.abs 1234567 + 5000) / 10000).
Proof.
  apply (stake_text_formula
           [("address", VStr "pokt1app");
            ("stake", VDict [("denom", VStr "upokt"); ("amount", VInt 1234567)]);
            ("service_configs", VList [VDict [("service_id", VStr "anvil")]])]
           [("denom", VStr "upokt"); ("amount", VInt 1234567)] (VInt 1234567) 1234567).
  - reflexivity.
  - reflexivity.
  - reflexivity.
  - vm_compute. reflexivity.
  - vm_compute. discriminate.
Defined.

Lemma stake_overflow_row_witness :
  let w := replying (record (VInt (2 ^ 1024 * 10 ^ 6)) []) in
  refresh_row w (VStr "pokt1good") (mounted_state w) =
  (Ok tt,
   set_table
     (table (mounted_state w)
      ++ [mkRow (VStr "pokt1good")
                (VStr "ParseErr: integer division result too large for a float")
                (VStr "-") (VStr "-")])
     (set_runs (S (runs (mounted_state w))) (mounted_state w))).
Proof.
  cbv zeta.
  apply (stake_overflow_row (replying (record (VInt (2 ^ 1024 * 10 ^ 6)) []))
           (VStr "pokt1good") (VStr "https://rpc.example:443")
           [("address", VStr "pokt1app");
            ("stake", VDict [("denom", VStr "upokt");
                             ("amount", VInt (2 ^ 1024 * 10 ^ 6))]);
            ("service_configs", VList [])]
           [("denom", VStr "upokt"); ("amount", VInt (2 ^ 1024 * 10 ^ 6))]
           (VInt (2 ^ 1024 * 10 ^ 6)) (2 ^ 1024 * 10 ^ 6)).
  - reflexivity.
  - reflexivity.
  - reflexivity.
  - reflexivity.
  - reflexivity.
  - reflexivity.
  - vm_compute. discriminate.
Defined.

Lemma refresh_again_same_table_witness :
  fst (refresh_table steady_world
         (snd (refresh_table steady_world (mounted_state steady_world))))
  = fst (refresh_table steady_world (mounted_state steady_world))
  /\ table (snd (refresh_table steady_world
                   (snd (refresh_table steady_world (mounted_state steady_world)))))
     = table (snd (refresh_table steady_world (mounted_state steady_world))).
Proof.
  apply (refresh_again_same_table steady_world).
  intros n m argv. reflexivity.
Defined.

(** A session on the example node: a refresh, the command line opened, a
    text that is not a command, the command line opened again, [q]. *)
Example session_run :
  let s := snd (boot the_world initial) in
  let s' := snd (session the_world
                   [ActionRefresh; ActionEnterCommandMode; InputSubmitted "help";
                    ActionEnterCommandMode; InputSubmitted " q "] s) in
  exited s' = true /\ cmd_display s' = false /\ runs s' = 8%nat
  /\ map address (table s') = applications.
Proof. vm_compute. repeat split. Qed.

End MoreRuns.
